(** * Terraform review backend: scoring engine, result builder, invocation
      pipeline and versioned store

    A shallow embedding of [risk_scoring.py], [models.py],
    [bedrock_service.py] and [dynamodb_client.py].

    Python [float] is IEEE 754 binary64 and is modelled by Rocq's primitive
    floats, so every arithmetic step rounds the way the interpreter does.
    Python [int] is unbounded and is modelled by [Z].  Exceptions are an
    explicit error monad; [time.sleep] and the Bedrock runtime are a log and
    an oracle threaded through the pipeline. *)

From Stdlib Require Import ZArith List String Ascii Bool Lia.
From Stdlib Require Import Floats DecimalString.
Import ListNotations.

Set Warnings "-inexact-float,-register-all".
Local Open Scope string_scope.

(** ** Python values, exceptions and builtins *)

Module Py.

(** The exception classes the modelled code can raise or catch.  All of them
    derive from [Exception]; [ClientError] is botocore's, [ValidationError]
    is pydantic's. *)
Inductive exn : Type :=
| ValueError (msg : string)
| AssertionError
| TypeError
| KeyError (key : string)
| AttributeError
| UnboundLocalError (name : string)
| OverflowError
| ValidationError
| ClientError (code : string)
| OtherError (cls : string)
| PlainException (msg : string).

Inductive result (A : Type) : Type :=
| Return (a : A)
| Raise (e : exn).
Arguments Return {A} a.
Arguments Raise {A} e.

Definition bind {A B} (c : result A) (k : A -> result B) : result B :=
  match c with
  | Return a => k a
  | Raise e => Raise e
  end.

Definition returns {A} (c : result A) : bool :=
  match c with Return _ => true | Raise _ => false end.

(** [assert cond]; the interpreter runs without [-O], so assertions are
    executed. *)
Definition assert (cond : bool) : result unit :=
  if cond then Return tt else Raise AssertionError.

(** Python's two-argument [min] and [max] on floats: the first argument is
    kept unless the second compares strictly below (above) it, so a NaN in
    second position never wins. *)
Definition min (a b : float) : float := if PrimFloat.ltb b a then b else a.
Definition max (a b : float) : float := if PrimFloat.ltb a b then b else a.

(** [float(n)] for an [int]: correctly rounded (nearest, ties to even);
    [OverflowError] when the rounded value is not finite.  This is the
    conversion behind [n * 0.5] for an integer [n]. *)
Definition float_of_int (n : Z) : result float :=
  let f := SF2Prim (binary_normalize prec emax n 0 false) in
  if PrimFloat.is_infinity f then Raise OverflowError else Return f.

(** [n * x] with [n : int] and [x : float]. *)
Definition int_mul_float (n : Z) (x : float) : result float :=
  bind (float_of_int n) (fun f => Return (f * x)%float).

(** [str.lower] on ASCII text. *)
Definition lower_ascii (c : ascii) : ascii :=
  let n := nat_of_ascii c in
  if (65 <=? n)%nat && (n <=? 90)%nat then ascii_of_nat (n + 32) else c.

Fixpoint lower (s : string) : string :=
  match s with
  | EmptyString => EmptyString
  | String c s' => String (lower_ascii c) (lower s')
  end.

(** [sub in s] for strings. *)
Fixpoint contains (sub s : string) : bool :=
  String.prefix sub s ||
  match s with
  | EmptyString => false
  | String _ s' => contains sub s'
  end.

(** [str(n)] for an [int], as used by f-strings. *)
Definition str_of_int (n : Z) : string :=
  NilZero.string_of_int (Z.to_int n).

(** [d[key]] and [d.get(key, default)] on a dict given as an association
    list in insertion order. *)
Fixpoint lookup {A} (key : string) (d : list (string * A)) : option A :=
  match d with
  | [] => None
  | (k, v) :: d' => if String.eqb k key then Some v else lookup key d'
  end.

Definition getitem {A} (d : list (string * A)) (key : string) : result A :=
  match lookup key d with
  | Some v => Return v
  | None => Raise (KeyError key)
  end.

Definition get {A} (d : list (string * A)) (key : string) (default : A) : A :=
  match lookup key d with
  | Some v => v
  | None => default
  end.

(** JSON-shaped Python values: what [json.loads] produces and what
    pydantic's [.dict()] returns.  A dict is an association list in
    insertion order. *)
Inductive pyval : Type :=
| PyNone
| PyBool (b : bool)
| PyInt (n : Z)
| PyFloat (f : float)
| PyStr (s : string)
| PyList (l : list pyval)
| PyDict (d : list (string * pyval)).

(** [key in obj] for a string [key]: membership in a dict's keys, in a
    list's elements, substring of a string; [TypeError] on anything that is
    not a container. *)
Definition is_str (key : string) (v : pyval) : bool :=
  match v with PyStr s => String.eqb s key | _ => false end.

Definition py_in (key : string) (obj : pyval) : result bool :=
  match obj with
  | PyDict d => Return (match lookup key d with Some _ => true | None => false end)
  | PyList l => Return (existsb (is_str key) l)
  | PyStr s => Return (contains key s)
  | _ => Raise TypeError
  end.

(** [obj[key]] for a string [key]. *)
Definition subscript (obj : pyval) (key : string) : result pyval :=
  match obj with
  | PyDict d => getitem d key
  | _ => Raise TypeError
  end.

(** [obj.get(key, default)]; only dicts have the method. *)
Definition dict_get (obj : pyval) (key : string) (default : pyval)
  : result pyval :=
  match obj with
  | PyDict d => Return (get d key default)
  | _ => Raise AttributeError
  end.

(** [isinstance(v, list)] and [isinstance(v, (int, float))]; [bool] is a
    subclass of [int]. *)
Definition isinstance_list (v : pyval) : bool :=
  match v with PyList _ => true | _ => false end.

Definition isinstance_int_float (v : pyval) : bool :=
  match v with PyInt _ | PyFloat _ | PyBool _ => true | _ => false end.

(** The chained comparison [0.0 <= v <= 1.0].  Floats compare as binary64
    (false on NaN), ints and bools by value; every other operand type makes
    the first comparison raise [TypeError]. *)
Definition in_unit_interval (v : pyval) : result bool :=
  match v with
  | PyFloat f => Return (PrimFloat.leb 0 f && PrimFloat.leb f 1)
  | PyInt n => Return ((0 <=? n)%Z && (n <=? 1)%Z)
  | PyBool _ => Return true
  | _ => Raise TypeError
  end.

(** [d[key] = v]: overwrite in place, or append a new key. *)
Fixpoint setitem {A} (d : list (string * A)) (key : string) (v : A)
  : list (string * A) :=
  match d with
  | [] => [(key, v)]
  | (k, x) :: d' =>
      if String.eqb k key then (k, v) :: d' else (k, x) :: setitem d' key v
  end.

End Py.

Export Py(result, Return, Raise, exn, pyval, PyNone, PyBool, PyInt, PyFloat,
          PyStr, PyList, PyDict).

Declare Scope py_scope.
Delimit Scope py_scope with py.
Notation "x <- c ;; k" := (Py.bind c (fun x => k))
  (at level 61, c at next level, right associativity) : py_scope.
Notation "c ;;; k" := (Py.bind c (fun _ => k))
  (at level 61, right associativity) : py_scope.
Local Open Scope py_scope.

(** ** models.py *)

Module Models.

Inductive RiskLevel : Type := LOW | MEDIUM | HIGH.

(** [RiskLevel.value] *)
Definition RiskLevel_value (r : RiskLevel) : string :=
  match r with
  | LOW => "low"
  | MEDIUM => "medium"
  | HIGH => "high"
  end.

Inductive ReviewStatus : Type := PENDING | IN_PROGRESS | COMPLETED | FAILED.

Definition ReviewStatus_value (s : ReviewStatus) : string :=
  match s with
  | PENDING => "pending"
  | IN_PROGRESS => "in_progress"
  | COMPLETED => "completed"
  | FAILED => "failed"
  end.

Record Finding : Type := {
  finding_id : string;
  category : string;
  severity : RiskLevel;
  title : string;
  description : string;
  line_number : option Z;
  file_path : option string;
  recommendation : string;
  estimated_cost_impact : option float;
  confidence_score : float
}.

Record FixSuggestion : Type := {
  fix_id : string;
  fix_finding_id : string;
  original_code : string;
  suggested_code : string;
  explanation : string;
  effectiveness_score : option float
}.

Record SecurityAnalysis : Type := {
  total_findings : Z;
  high_severity : Z;
  medium_severity : Z;
  low_severity : Z;
  findings : list Finding
}.

Record CostAnalysis : Type := {
  estimated_monthly_cost : float;
  estimated_annual_cost : float;
  cost_optimizations : list Finding;
  resource_count : Z
}.

Record ReliabilityAnalysis : Type := {
  reliability_score : float;
  single_points_of_failure : list Finding;
  recommendations : list string
}.

Record AIReviewResult : Type := {
  review_id : string;
  security_analysis : SecurityAnalysis;
  cost_analysis : CostAnalysis;
  reliability_analysis : ReliabilityAnalysis;
  overall_risk_score : float;
  fix_suggestions : list FixSuggestion;
  review_metadata : list (string * pyval)
}.

Record Review : Type := {
  r_review_id : string;
  terraform_code : string;
  spacelift_run_id : option string;
  spacelift_context : list (string * pyval);
  status : ReviewStatus;
  ai_review_result : option AIReviewResult;
  created_at : string;
  updated_at : string;
  version : Z;
  previous_version_id : option string
}.

(** [finding.confidence_score = c] *)
Definition set_confidence_score (f : Finding) (c : float) : Finding :=
  {| finding_id := finding_id f; category := category f;
     severity := severity f; title := title f;
     description := description f; line_number := line_number f;
     file_path := file_path f; recommendation := recommendation f;
     estimated_cost_impact := estimated_cost_impact f;
     confidence_score := c |}.

End Models.

(** ** pydantic: building a model from keyword arguments, and [.dict()]

    Validation is modelled strictly: a [str] field takes a string, an [int]
    field an integer, a [float] field a float or an integer, an [Optional]
    field additionally [None] or absence; everything else is a
    [ValidationError].  Unknown keys are ignored, as [BaseModel] does by
    default.  pydantic's lax coercions of other types are outside the model. *)

Module Pydantic.
Import Models.

Definition as_str (v : pyval) : result string :=
  match v with PyStr s => Return s | _ => Raise Py.ValidationError end.

Definition as_int (v : pyval) : result Z :=
  match v with PyInt n => Return n | _ => Raise Py.ValidationError end.

Definition as_float (v : pyval) : result float :=
  match v with
  | PyFloat f => Return f
  | PyInt n =>
      match Py.float_of_int n with
      | Return f => Return f
      | Raise _ => Raise Py.ValidationError
      end
  | _ => Raise Py.ValidationError
  end.

(** [Field(ge=0.0, le=1.0)] *)
Definition as_unit_float (v : pyval) : result float :=
  f <- as_float v ;;
  if PrimFloat.leb 0 f && PrimFloat.leb f 1 then Return f
  else Raise Py.ValidationError.

Definition as_RiskLevel (v : pyval) : result RiskLevel :=
  s <- as_str v ;;
  if String.eqb s "low" then Return LOW
  else if String.eqb s "medium" then Return MEDIUM
  else if String.eqb s "high" then Return HIGH
  else Raise Py.ValidationError.

Fixpoint mapM {A B} (f : A -> result B) (l : list A) : result (list B) :=
  match l with
  | [] => Return []
  | x :: l' => y <- f x ;; ys <- mapM f l' ;; Return (y :: ys)
  end.

Definition as_list {A} (conv : pyval -> result A) (v : pyval)
  : result (list A) :=
  match v with
  | PyList l => mapM conv l
  | _ => Raise Py.ValidationError
  end.

Definition as_dict (v : pyval) : result (list (string * pyval)) :=
  match v with PyDict d => Return d | _ => Raise Py.ValidationError end.

Definition required {A} (conv : pyval -> result A)
    (kwargs : list (string * pyval)) (key : string) : result A :=
  match Py.lookup key kwargs with
  | Some v => conv v
  | None => Raise Py.ValidationError
  end.

Definition optional {A} (conv : pyval -> result A)
    (kwargs : list (string * pyval)) (key : string) : result (option A) :=
  match Py.lookup key kwargs with
  | None | Some PyNone => Return None
  | Some v => x <- conv v ;; Return (Some x)
  end.

(** [Finding] built from the keyword arguments unpacked from [f];
    unpacking needs a mapping. *)
Definition Finding_of (f : pyval) : result Finding :=
  match f with
  | PyDict kw =>
      a <- required as_str kw "finding_id" ;;
      b <- required as_str kw "category" ;;
      c <- required as_RiskLevel kw "severity" ;;
      d <- required as_str kw "title" ;;
      e <- required as_str kw "description" ;;
      g <- optional as_int kw "line_number" ;;
      h <- optional as_str kw "file_path" ;;
      i <- required as_str kw "recommendation" ;;
      j <- optional as_float kw "estimated_cost_impact" ;;
      k <- required as_unit_float kw "confidence_score" ;;
      Return {| finding_id := a; category := b; severity := c; title := d;
                description := e; line_number := g; file_path := h;
                recommendation := i; estimated_cost_impact := j;
                confidence_score := k |}
  | _ => Raise Py.TypeError
  end.

(** [FixSuggestion] built from the keyword arguments unpacked from [f]. *)
Definition FixSuggestion_of (f : pyval) : result FixSuggestion :=
  match f with
  | PyDict kw =>
      a <- required as_str kw "fix_id" ;;
      b <- required as_str kw "finding_id" ;;
      c <- required as_str kw "original_code" ;;
      d <- required as_str kw "suggested_code" ;;
      e <- required as_str kw "explanation" ;;
      g <- optional as_unit_float kw "effectiveness_score" ;;
      Return {| fix_id := a; fix_finding_id := b; original_code := c;
                suggested_code := d; explanation := e;
                effectiveness_score := g |}
  | _ => Raise Py.TypeError
  end.

(** A nested model given as a dict; pydantic reports a failure inside it as
    a [ValidationError] of the enclosing model. *)
Definition nested {A} (build : pyval -> result A) (v : pyval) : result A :=
match v with
| PyDict _ =>
    match build v with
    | Return a => Return a
    | Raise _ => Raise Py.ValidationError
    end
| _ => Raise Py.ValidationError
end.

Definition SecurityAnalysis_of (v : pyval) : result SecurityAnalysis :=
match v with
| PyDict kw =>
    a <- required as_int kw "total_findings" ;;
    b <- required as_int kw "high_severity" ;;
    c <- required as_int kw "medium_severity" ;;
    d <- required as_int kw "low_severity" ;;
    e <- required (as_list (nested Finding_of)) kw "findings" ;;
    Return {| total_findings := a; high_severity := b; medium_severity := c;
              low_severity := d; findings := e |}
| _ => Raise Py.TypeError
end.

Definition CostAnalysis_of (v : pyval) : result CostAnalysis :=
match v with
| PyDict kw =>
    a <- required as_float kw "estimated_monthly_cost" ;;
    b <- required as_float kw "estimated_annual_cost" ;;
    c <- required (as_list (nested Finding_of)) kw "cost_optimizations" ;;
    d <- required as_int kw "resource_count" ;;
    Return {| estimated_monthly_cost := a; estimated_annual_cost := b;
              cost_optimizations := c; resource_count := d |}
| _ => Raise Py.TypeError
end.

Definition ReliabilityAnalysis_of (v : pyval) : result ReliabilityAnalysis :=
match v with
| PyDict kw =>
    a <- required as_unit_float kw "reliability_score" ;;
    b <- required (as_list (nested Finding_of)) kw
                  "single_points_of_failure" ;;
    c <- required (as_list as_str) kw "recommendations" ;;
    Return {| reliability_score := a; single_points_of_failure := b;
              recommendations := c |}
| _ => Raise Py.TypeError
end.

Definition AIReviewResult_of (v : pyval) : result AIReviewResult :=
match v with
| PyDict kw =>
    a <- required as_str kw "review_id" ;;
    b <- required (nested SecurityAnalysis_of) kw "security_analysis" ;;
    c <- required (nested CostAnalysis_of) kw "cost_analysis" ;;
    d <- required (nested ReliabilityAnalysis_of) kw "reliability_analysis" ;;
    e <- required as_unit_float kw "overall_risk_score" ;;
    f <- required (as_list (nested FixSuggestion_of)) kw "fix_suggestions" ;;
    g <- required as_dict kw "review_metadata" ;;
    Return {| review_id := a; security_analysis := b; cost_analysis := c;
              reliability_analysis := d; overall_risk_score := e;
              fix_suggestions := f; review_metadata := g |}
| _ => Raise Py.TypeError
end.

(** [.dict()]: field names in declaration order, nested models as dicts,
    absent optionals as [None]. *)
Definition opt {A} (f : A -> pyval) (o : option A) : pyval :=
  match o with Some a => f a | None => PyNone end.

Definition Finding_dict (f : Finding) : pyval :=
  PyDict [("finding_id", PyStr (finding_id f));
          ("category", PyStr (category f));
          ("severity", PyStr (RiskLevel_value (severity f)));
          ("title", PyStr (title f));
          ("description", PyStr (description f));
          ("line_number", opt PyInt (line_number f));
          ("file_path", opt PyStr (file_path f));
          ("recommendation", PyStr (recommendation f));
          ("estimated_cost_impact", opt PyFloat (estimated_cost_impact f));
          ("confidence_score", PyFloat (confidence_score f))].

Definition FixSuggestion_dict (f : FixSuggestion) : pyval :=
  PyDict [("fix_id", PyStr (fix_id f));
          ("finding_id", PyStr (fix_finding_id f));
          ("original_code", PyStr (original_code f));
          ("suggested_code", PyStr (suggested_code f));
          ("explanation", PyStr (explanation f));
          ("effectiveness_score", opt PyFloat (effectiveness_score f))].

Definition SecurityAnalysis_dict (a : SecurityAnalysis) : pyval :=
  PyDict [("total_findings", PyInt (total_findings a));
          ("high_severity", PyInt (high_severity a));
          ("medium_severity", PyInt (medium_severity a));
          ("low_severity", PyInt (low_severity a));
          ("findings", PyList (map Finding_dict (findings a)))].

Definition CostAnalysis_dict (a : CostAnalysis) : pyval :=
  PyDict [("estimated_monthly_cost", PyFloat (estimated_monthly_cost a));
          ("estimated_annual_cost", PyFloat (estimated_annual_cost a));
          ("cost_optimizations",
           PyList (map Finding_dict (cost_optimizations a)));
          ("resource_count", PyInt (resource_count a))].

Definition ReliabilityAnalysis_dict (a : ReliabilityAnalysis) : pyval :=
  PyDict [("reliability_score", PyFloat (reliability_score a));
          ("single_points_of_failure",
           PyList (map Finding_dict (single_points_of_failure a)));
          ("recommendations", PyList (map PyStr (recommendations a)))].

Definition AIReviewResult_dict (r : AIReviewResult) : pyval :=
  PyDict [("review_id", PyStr (review_id r));
          ("security_analysis",
           SecurityAnalysis_dict (security_analysis r));
          ("cost_analysis", CostAnalysis_dict (cost_analysis r));
          ("reliability_analysis",
           ReliabilityAnalysis_dict (reliability_analysis r));
          ("overall_risk_score", PyFloat (overall_risk_score r));
          ("fix_suggestions",
           PyList (map FixSuggestion_dict (fix_suggestions r)));
          ("review_metadata", PyDict (review_metadata r))].

End Pydantic.

(** ** risk_scoring.py *)

Module RiskScoringAlgorithm.
Import Models.
Local Open Scope float_scope.

Definition SEVERITY_WEIGHTS : list (string * float) :=
  [("high", 1.0); ("medium", 0.5); ("low", 0.2)]%float.

Definition CATEGORY_WEIGHTS : list (string * float) :=
  [("security", 0.50); ("cost", 0.25); ("reliability", 0.25)]%float.

Definition _calculate_security_score (security : SecurityAnalysis)
  : result float :=
  if (total_findings security =? 0)%Z then Return 0.0
  else
    w_high <- Py.getitem SEVERITY_WEIGHTS "high" ;;
    t_high <- Py.int_mul_float (high_severity security) w_high ;;
    w_medium <- Py.getitem SEVERITY_WEIGHTS "medium" ;;
    t_medium <- Py.int_mul_float (medium_severity security) w_medium ;;
    w_low <- Py.getitem SEVERITY_WEIGHTS "low" ;;
    t_low <- Py.int_mul_float (low_severity security) w_low ;;
    let weighted_score := t_high + t_medium + t_low in
    let normalized := Py.min 1.0 (weighted_score / 10.0) in
    let normalized :=
      if (0 <? high_severity security)%Z
      then Py.min 1.0 (normalized * 1.5)
      else normalized in
    Return normalized.

Definition _calculate_cost_score (cost : CostAnalysis) : result float :=
  let cost_base := Py.min 1.0 (estimated_monthly_cost cost / 10000.0) in
  let optimization_count := Z.of_nat (List.length (cost_optimizations cost)) in
  t <- Py.int_mul_float optimization_count 0.1 ;;
  let optimization_score := Py.min 0.5 t in
  Return (Py.min 1.0 (cost_base + optimization_score)).

Definition _calculate_reliability_score (reliability : ReliabilityAnalysis)
  : result float :=
  let base_risk := 1.0 - reliability_score reliability in
  let spof_count :=
    Z.of_nat (List.length (single_points_of_failure reliability)) in
  t <- Py.int_mul_float spof_count 0.1 ;;
  let spof_adjustment := Py.min 0.3 t in
  Return (Py.min 1.0 (base_risk + spof_adjustment)).

Definition calculate_overall_risk (security : SecurityAnalysis)
    (cost : CostAnalysis) (reliability : ReliabilityAnalysis)
  : result float :=
  security_score <- _calculate_security_score security ;;
  cost_score <- _calculate_cost_score cost ;;
  reliability_score <- _calculate_reliability_score reliability ;;
  w_security <- Py.getitem CATEGORY_WEIGHTS "security" ;;
  w_cost <- Py.getitem CATEGORY_WEIGHTS "cost" ;;
  w_reliability <- Py.getitem CATEGORY_WEIGHTS "reliability" ;;
  let overall_risk :=
    security_score * w_security + cost_score * w_cost
    + reliability_score * w_reliability in
  Return (Py.min 1.0 (Py.max 0.0 overall_risk)).

Definition get_risk_level (risk_score : float) : string :=
  if 0.7 <=? risk_score then "high"
  else if 0.4 <=? risk_score then "medium"
  else "low".

End RiskScoringAlgorithm.

Module ConfidenceScoringAlgorithm.
Import Models.
Local Open Scope float_scope.

Definition MODEL_CONFIDENCE_BASE : list (string * float) :=
  [("claude-3-5-sonnet", 0.95); ("claude-3-opus", 0.98);
   ("llama3-70b", 0.85); ("default", 0.80)]%float.

Definition severity_adjustment_table : list (string * float) :=
  [("high", 0.0); ("medium", -0.02); ("low", -0.05)]%float.

Definition calculate_finding_confidence (finding : Finding)
    (model_used : string) (has_line_number has_file_path : bool)
  : result float :=
  default <- Py.getitem MODEL_CONFIDENCE_BASE "default" ;;
  let base_confidence :=
    Py.get MODEL_CONFIDENCE_BASE (Py.lower model_used) default in
  let specificity_bonus := 0.0 in
  let specificity_bonus :=
    if has_line_number then specificity_bonus + 0.03
    else specificity_bonus in
  let specificity_bonus :=
    if has_file_path then specificity_bonus + 0.02
    else specificity_bonus in
  let severity_adjustment :=
    Py.get severity_adjustment_table
           (RiskLevel_value (severity finding)) 0.0 in
  let confidence :=
    base_confidence + specificity_bonus + severity_adjustment in
  Return (Py.min 1.0 (Py.max 0.0 confidence)).

End ConfidenceScoringAlgorithm.

(** ** bedrock_service.py *)

Module BedrockService.
Import Models.

Record model_config : Type := {
  id : string;
  name : string;
  max_tokens : Z;
  temperature : float;
  use_case : string
}.

Definition MODELS : list model_config :=
  [ {| id := "anthropic.claude-3-5-sonnet-20241022-v2:0";
       name := "Claude 3.5 Sonnet"; max_tokens := 4096;
       temperature := 0.1; use_case := "primary" |};
    {| id := "anthropic.claude-3-opus-20240229-v1:0";
       name := "Claude 3 Opus"; max_tokens := 4096;
       temperature := 0.1; use_case := "fallback_high_quality" |};
    {| id := "meta.llama3-70b-instruct-v1:0";
       name := "Llama 3 70B"; max_tokens := 2048;
       temperature := 0.1; use_case := "fallback_cost_effective" |} ].

Definition PROMPT_VERSIONS : list (string * string) :=
  [("pr_review", "v2.1"); ("failure_analysis", "v1.3");
   ("fix_effectiveness", "v1.0")].

(** *** The outside world

    What a run observes besides its arguments: how many requests have been
    sent to the Bedrock runtime, and the durations handed to [time.sleep],
    oldest first. *)
Record world : Type := { calls : nat; slept : list Z }.

Definition init_world : world := {| calls := 0; slept := [] |}.

(** Computations that may raise and that act on the world; the world
    survives an exception. *)
Definition io (A : Type) : Type := world -> result A * world.

Definition io_ret {A} (a : A) : io A := fun w => (Return a, w).
Definition io_raise {A} (e : exn) : io A := fun w => (Raise e, w).
Definition io_lift {A} (c : result A) : io A := fun w => (c, w).
Definition io_bind {A B} (c : io A) (k : A -> io B) : io B :=
  fun w =>
    match c w with
    | (Return a, w') => k a w'
    | (Raise e, w') => (Raise e, w')
    end.

(** [time.sleep(seconds)] *)
Definition sleep (seconds : Z) : io unit :=
  fun w => (Return tt, {| calls := calls w; slept := slept w ++ [seconds] |}).

(** One request to the runtime; [reply n] is what the [n]-th request of the
    run comes back with. *)
Definition request (reply : nat -> result string) : io string :=
  fun w => (reply (calls w), {| calls := S (calls w); slept := slept w |}).

(** [range(n)] *)
Definition range (n : Z) : list Z := map Z.of_nat (seq 0 (Z.to_nat n)).

(** [re.search(r'\{.*\}', text, re.DOTALL)]: from the first opening brace
    to the last closing brace after it. *)
Fixpoint from_first_open (s : string) : option string :=
  match s with
  | EmptyString => None
  | String c s' =>
      if Ascii.eqb c "{"%char then Some s else from_first_open s'
  end.

Fixpoint upto_last_close (s : string) : option string :=
  match s with
  | EmptyString => None
  | String c s' =>
      match upto_last_close s' with
      | Some r => Some (String c r)
      | None => if Ascii.eqb c "}"%char then Some (String c EmptyString)
                else None
      end
  end.

Definition search_braces (text : string) : option string :=
  match from_first_open text with
  | Some s => upto_last_close s
  | None => None
  end.

(** [for key in required_keys: if key not in data: raise ValueError] *)
Fixpoint check_required_keys (required_keys : list string) (data : pyval)
  : result unit :=
  match required_keys with
  | [] => Return tt
  | key :: rest =>
      present <- Py.py_in key data ;;
      if negb present
      then Raise (Py.ValueError ("Missing required key: " ++ key))
      else check_required_keys rest data
  end.

Definition _validate_pr_review_schema (data : pyval) : result unit :=
  let required_keys :=
    ["security_analysis"; "cost_analysis"; "reliability_analysis";
     "overall_risk_score"; "fix_suggestions"; "review_metadata"] in
  check_required_keys required_keys data ;;;
  (* security_analysis *)
  sec <- Py.subscript data "security_analysis" ;;
  b <- Py.py_in "total_findings" sec ;;
  Py.assert b ;;;
  b <- Py.py_in "findings" sec ;;
  b <- (if b then v <- Py.subscript sec "findings" ;;
                  Return (Py.isinstance_list v)
        else Return false) ;;
  Py.assert b ;;;
  (* cost_analysis *)
  cost <- Py.subscript data "cost_analysis" ;;
  b <- Py.py_in "estimated_monthly_cost" cost ;;
  Py.assert b ;;;
  v <- Py.subscript cost "estimated_monthly_cost" ;;
  Py.assert (Py.isinstance_int_float v) ;;;
  (* reliability_analysis *)
  rel <- Py.subscript data "reliability_analysis" ;;
  b <- Py.py_in "reliability_score" rel ;;
  Py.assert b ;;;
  v <- Py.subscript rel "reliability_score" ;;
  b <- Py.in_unit_interval v ;;
  Py.assert b ;;;
  (* overall_risk_score *)
  v <- Py.subscript data "overall_risk_score" ;;
  b <- Py.in_unit_interval v ;;
  Py.assert b.

Definition _validate_failure_analysis_schema (data : pyval) : result unit :=
  check_required_keys ["root_cause"; "recommendations"; "confidence_score"]
                      data.

Definition _validate_fix_effectiveness_schema (data : pyval) : result unit :=
  check_required_keys
    ["fix_effectiveness_score"; "findings_resolved"; "risk_reduction"] data.

Definition _validate_schema (data : pyval) (prompt_type : string)
  : result unit :=
  if String.eqb prompt_type "pr_review"
  then _validate_pr_review_schema data
  else if String.eqb prompt_type "failure_analysis"
  then _validate_failure_analysis_schema data
  else if String.eqb prompt_type "fix_effectiveness"
  then _validate_fix_effectiveness_schema data
  else Raise (Py.ValueError
                ("Unknown prompt type for validation: " ++ prompt_type)).

(** Reading a local variable: a name that the function assigns somewhere is
    local from the start, and reading it before the assignment has run
    raises [UnboundLocalError]. *)
Definition load_local {A} (name : string) (slot : option A) : result A :=
  match slot with
  | Some v => Return v
  | None => Raise (Py.UnboundLocalError name)
  end.

(** Iterating a value in a comprehension. *)
Fixpoint chars (s : string) : list pyval :=
  match s with
  | EmptyString => []
  | String c s' => PyStr (String c EmptyString) :: chars s'
  end.

Definition iter (v : pyval) : result (list pyval) :=
  match v with
  | PyList l => Return l
  | PyStr s => Return (chars s)
  | PyDict d => Return (map (fun kv => PyStr (fst kv)) d)
  | _ => Raise Py.TypeError
  end.

(** [model_used.lower()] needs a [str]. *)
Definition expect_str (v : pyval) : result string :=
  match v with PyStr s => Return s | _ => Raise Py.AttributeError end.

Section Service.

(** [datetime.utcnow().isoformat()] *)
Variable utcnow_isoformat : string.

(** [json.loads]; [None] stands for [json.JSONDecodeError]. *)
Variable json_loads : string -> option pyval.

(** The two wire formats of the runtime: request encoding, the
    [invoke_model] call and response decoding, as the reply to the [n]-th
    request of the run. *)
Variable claude_reply : model_config -> string -> nat -> result string.
Variable llama_reply : model_config -> string -> nat -> result string.

(** The prompt templates: f-strings over the code, the context and the
    clock.  They raise when the context holds values the template cannot
    format. *)
Variable _get_pr_review_prompt :
  string -> list (string * pyval) -> string -> result string.
Variable _get_failure_analysis_prompt : string -> string -> result string.
Variable _get_fix_effectiveness_prompt : string -> result string.

Definition _invoke_claude (mc : model_config) (prompt : string)
  : io string := request (claude_reply mc prompt).

Definition _invoke_llama (mc : model_config) (prompt : string)
  : io string := request (llama_reply mc prompt).

Definition max_retries : Z := 3.
Definition backoff : Z := 1.

(** The [try] body of [_invoke_model]. *)
Definition dispatch (mc : model_config) (prompt : string) : io string :=
  if Py.contains "claude" (Py.lower (id mc))
  then _invoke_claude mc prompt
  else if Py.contains "llama" (Py.lower (id mc))
  then _invoke_llama mc prompt
  else io_raise (Py.ValueError ("Unsupported model: " ++ id mc)).

(** [for attempt in range(max_retries)] with its two handlers. *)
Fixpoint attempts_loop (attempts : list Z) (mc : model_config)
    (prompt : string) : io string :=
  match attempts with
  | [] => io_raise (Py.PlainException "All retry attempts failed")
  | attempt :: rest =>
      fun w =>
        match dispatch mc prompt w with
        | (Return text, w1) => (Return text, w1)
        | (Raise (Py.ClientError error_code), w1) =>
            if String.eqb error_code "ThrottlingException"
               && (attempt <? max_retries - 1)%Z
            then io_bind (sleep (backoff * 2 ^ attempt))
                         (fun _ => attempts_loop rest mc prompt) w1
            else (Raise (Py.ClientError error_code), w1)
        | (Raise e, w1) =>
            if (attempt <? max_retries - 1)%Z
            then io_bind (sleep (backoff * 2 ^ attempt))
                         (fun _ => attempts_loop rest mc prompt) w1
            else (Raise e, w1)
        end
  end.

Definition _invoke_model (mc : model_config) (prompt : string)
  : io string := attempts_loop (range max_retries) mc prompt.

Definition _get_prompt_template (prompt_type terraform_code : string)
    (spacelift_context : list (string * pyval)) : result string :=
  let version := Py.get PROMPT_VERSIONS prompt_type "v1.0" in
  if String.eqb prompt_type "pr_review"
  then _get_pr_review_prompt terraform_code spacelift_context version
  else if String.eqb prompt_type "failure_analysis"
  then _get_failure_analysis_prompt terraform_code version
  else if String.eqb prompt_type "fix_effectiveness"
  then _get_fix_effectiveness_prompt version
  else Raise (Py.ValueError ("Unknown prompt type: " ++ prompt_type)).

Definition _parse_and_validate_json (text prompt_type : string)
  : result pyval :=
  let json_text :=
    match search_braces text with
    | Some m => m
    | None => text
    end in
  match json_loads json_text with
  | None => Raise (Py.ValueError "Invalid JSON response")
  | Some parsed =>
      _validate_schema parsed prompt_type ;;;
      Return parsed
  end.

(** The comprehension [[Finding(...) for f in value]]. *)
Definition findings_of (value : pyval) : result (list Finding) :=
  items <- iter value ;;
  Pydantic.mapM Pydantic.Finding_of items.

Definition _build_review_result (parsed_data : pyval)
    (terraform_code : string)
    (spacelift_context : list (string * pyval)) : result AIReviewResult :=
  (* locals that are assigned further down start out unbound *)
  let review_metadata : option pyval := None in
  security_data <- Py.dict_get parsed_data "security_analysis" (PyDict []) ;;
  cost_data <- Py.dict_get parsed_data "cost_analysis" (PyDict []) ;;
  reliability_data <-
    Py.dict_get parsed_data "reliability_analysis" (PyDict []) ;;
  (* Build security analysis *)
  a1 <- Py.dict_get security_data "total_findings" (PyInt 0) ;;
  a2 <- Py.dict_get security_data "high_severity" (PyInt 0) ;;
  a3 <- Py.dict_get security_data "medium_severity" (PyInt 0) ;;
  a4 <- Py.dict_get security_data "low_severity" (PyInt 0) ;;
  a5 <- Py.dict_get security_data "findings" (PyList []) ;;
  a5 <- findings_of a5 ;;
  a1 <- Pydantic.as_int a1 ;;
  a2 <- Pydantic.as_int a2 ;;
  a3 <- Pydantic.as_int a3 ;;
  a4 <- Pydantic.as_int a4 ;;
  let security_analysis :=
    {| total_findings := a1; high_severity := a2; medium_severity := a3;
       low_severity := a4; findings := a5 |} in
  (* Build cost analysis *)
  c1 <- Py.dict_get cost_data "estimated_monthly_cost" (PyFloat 0.0) ;;
  c2 <- Py.dict_get cost_data "estimated_annual_cost" (PyFloat 0.0) ;;
  c3 <- Py.dict_get cost_data "resource_count" (PyInt 0) ;;
  c4 <- Py.dict_get cost_data "cost_optimizations" (PyList []) ;;
  c4 <- findings_of c4 ;;
  c1 <- Pydantic.as_float c1 ;;
  c2 <- Pydantic.as_float c2 ;;
  c3 <- Pydantic.as_int c3 ;;
  let cost_analysis :=
    {| estimated_monthly_cost := c1; estimated_annual_cost := c2;
       cost_optimizations := c4; resource_count := c3 |} in
  (* Build reliability analysis *)
  r1 <- Py.dict_get reliability_data "reliability_score" (PyFloat 0.5) ;;
  r2 <- Py.dict_get reliability_data "single_points_of_failure"
                    (PyList []) ;;
  r2 <- findings_of r2 ;;
  r3 <- Py.dict_get reliability_data "recommendations" (PyList []) ;;
  r1 <- Pydantic.as_unit_float r1 ;;
  r3 <- Pydantic.as_list Pydantic.as_str r3 ;;
  let reliability_analysis :=
    {| reliability_score := r1; single_points_of_failure := r2;
       recommendations := r3 |} in
  (* Calculate overall risk score if not provided or invalid *)
  overall_risk <- Py.dict_get parsed_data "overall_risk_score" PyNone ;;
  invalid <- match overall_risk with
             | PyNone => Return true
             | v => b <- Py.in_unit_interval v ;; Return (negb b)
             end ;;
  overall_risk <-
    (if invalid
     then x <- RiskScoringAlgorithm.calculate_overall_risk
                 security_analysis cost_analysis reliability_analysis ;;
          Return (PyFloat x)
     else Return overall_risk) ;;
  (* Calculate and update confidence scores *)
  metadata <- load_local "review_metadata" review_metadata ;;
  model_used <-
    Py.dict_get metadata "model_used" (PyStr "claude-3-5-sonnet") ;;
  updated <-
    Pydantic.mapM
      (fun finding =>
         model_name <- expect_str model_used ;;
         c <- ConfidenceScoringAlgorithm.calculate_finding_confidence
                finding model_name
                (match line_number finding with Some _ => true
                                              | None => false end)
                (match file_path finding with Some _ => true
                                            | None => false end) ;;
         Return (set_confidence_score finding c))
      (findings security_analysis) ;;
  let security_analysis :=
    {| total_findings := a1; high_severity := a2; medium_severity := a3;
       low_severity := a4; findings := updated |} in
  (* Build fix suggestions *)
  fs <- Py.dict_get parsed_data "fix_suggestions" (PyList []) ;;
  fs <- iter fs ;;
  fix_suggestions <- Pydantic.mapM Pydantic.FixSuggestion_of fs ;;
  (* Build metadata *)
  meta <- Py.dict_get parsed_data "review_metadata" (PyDict []) ;;
  meta <- match meta with
          | PyDict d => Return d
          | _ => Raise Py.TypeError
          end ;;
  let meta :=
    Py.setitem meta "code_length"
               (PyInt (Z.of_nat (String.length terraform_code))) in
  let meta :=
    Py.setitem meta "review_timestamp" (PyStr utcnow_isoformat) in
  score <- Pydantic.as_unit_float overall_risk ;;
  Return {| review_id := "";
            security_analysis := security_analysis;
            cost_analysis := cost_analysis;
            reliability_analysis := reliability_analysis;
            overall_risk_score := score;
            fix_suggestions := fix_suggestions;
            review_metadata := meta |}.

Definition _create_fallback_result : AIReviewResult :=
  {| review_id := "";
     security_analysis :=
       {| total_findings := 0; high_severity := 0; medium_severity := 0;
          low_severity := 0; findings := [] |};
     cost_analysis :=
       {| estimated_monthly_cost := 0.0; estimated_annual_cost := 0.0;
          cost_optimizations := []; resource_count := 0 |};
     reliability_analysis :=
       {| reliability_score := 0.5; single_points_of_failure := [];
          recommendations :=
            ["Unable to complete analysis - AI service unavailable"] |};
     overall_risk_score := 0.5;
     fix_suggestions := [];
     review_metadata :=
       [("error", PyStr "AI service unavailable");
        ("review_timestamp", PyStr utcnow_isoformat)] |}.

(** The [try] body of [review_terraform] for one backend. *)
Definition try_model (mc : model_config) (prompt prompt_type : string)
    (terraform_code : string)
    (spacelift_context : list (string * pyval)) : io AIReviewResult :=
  io_bind (_invoke_model mc prompt) (fun result =>
  io_bind (io_lift (_parse_and_validate_json result prompt_type))
    (fun parsed_result =>
  io_lift (_build_review_result parsed_result terraform_code
                                spacelift_context))).

(** [for model_config in self.MODELS: try ... except Exception: continue],
    then the fallback. *)
Fixpoint models_loop (models : list model_config)
    (prompt prompt_type terraform_code : string)
    (spacelift_context : list (string * pyval)) : io AIReviewResult :=
  match models with
  | [] => io_ret _create_fallback_result
  | mc :: rest =>
      fun w =>
        match try_model mc prompt prompt_type terraform_code
                        spacelift_context w with
        | (Return r, w1) => (Return r, w1)
        | (Raise _, w1) =>
            models_loop rest prompt prompt_type terraform_code
                        spacelift_context w1
        end
  end.

Definition review_terraform (terraform_code : string)
    (spacelift_context : option (list (string * pyval)))
    (prompt_type : string) : io AIReviewResult :=
  let spacelift_context :=
    match spacelift_context with Some d => d | None => [] end in
  io_bind
    (io_lift (_get_prompt_template prompt_type terraform_code
                                   spacelift_context))
    (fun prompt =>
       models_loop MODELS prompt prompt_type terraform_code
                   spacelift_context).

(** Every configured backend fails in the run that starts in world [w]:
    the [try] body raises for the first backend, then for the second in
    the world the first one left behind, and so on. *)
Fixpoint every_backend_fails (models : list model_config)
    (prompt prompt_type terraform_code : string)
    (spacelift_context : list (string * pyval)) (w : world) : Prop :=
  match models with
  | [] => True
  | mc :: rest =>
      match try_model mc prompt prompt_type terraform_code
                      spacelift_context w with
      | (Raise _, w1) =>
          every_backend_fails rest prompt prompt_type terraform_code
                              spacelift_context w1
      | (Return _, _) => False
      end
  end.

End Service.

(** The failures [_invoke_model] answers with a sleep and another attempt,
    while attempts remain: throttling reported by the service, and every
    exception that is not a [ClientError]. *)
Definition retried (e : exn) : bool :=
  match e with
  | Py.ClientError error_code => String.eqb error_code "ThrottlingException"
  | _ => true
  end.


Definition after_sleeping (w : world) (seconds : list Z) : world :=
  {| calls := calls w; slept := slept w ++ seconds |}.

End BedrockService.

(** ** dynamodb_client.py *)

Module DynamoDBClient.
Import Models.

(** *** Attribute values

    What [_serialize] hands to the table: the value types boto3 accepts,
    with [Decimal] in place of [float].  [DDecimal f] is the value
    [Decimal(str(f))]; converting it back with [float] gives [f] again,
    because [str] of a float is its shortest digit string that reads back
    as the same float. *)
Inductive ddbval : Type :=
| DBool (b : bool)
| DInt (n : Z)
| DStr (s : string)
| DDecimal (f : float)
| DList (l : list ddbval)
| DDict (d : list (string * ddbval)).

Fixpoint _serialize (obj : pyval) : ddbval :=
  match obj with
  | PyDict d => DDict (map (fun kv => let '(k, v) := kv in (k, _serialize v)) d)
  | PyList l => DList (map _serialize l)
  | PyFloat f => DDecimal f
  | PyBool b => DBool b
  | PyInt n => DInt n
  | PyStr s => DStr s
  | PyNone => DStr "None"   (* the final [else]: [str(obj)] *)
  end.

Fixpoint _deserialize (obj : ddbval) : pyval :=
  match obj with
  | DDict d => PyDict (map (fun kv => let '(k, v) := kv in (k, _deserialize v)) d)
  | DList l => PyList (map _deserialize l)
  | DDecimal f => PyFloat f
  | DBool b => PyBool b
  | DInt n => PyInt n
  | DStr s => PyStr s
  end.

(** *** The table

    One item per primary key [(PK, SK)].  Both key attributes are strings,
    so a query orders the items of a partition by the byte order of [SK].

    Items carry the review they were written from: the encoding of the
    attribute values by [_serialize] and [_deserialize] is the subject of
    the definitions above, and the version logic below only reads the
    [version] attribute.  The table hands numbers back as [Decimal], which
    [_deserialize] turns into floats; a version stays a whole number under
    that conversion and is kept as an integer here, so the text of
    [previous_version_id] shows it without the fractional part a float
    prints. *)
Record Item : Type := {
  PK : string;
  SK : string;
  GSI1PK : string;
  GSI1SK : string;
  GSI2PK : string;
  GSI2SK : string;
  attributes : Review
}.

Definition Table : Type := list Item.

Definition has_key (pk sk : string) (x : Item) : bool :=
  String.eqb (PK x) pk && String.eqb (SK x) sk.

(** [table.put_item(Item=item)]: replaces the item with the same primary
    key, if there is one. *)
Definition put_item (t : Table) (item : Item) : Table :=
  item :: filter (fun x => negb (has_key (PK item) (SK item) x)) t.

(** [table.get_item(Key=...)] *)
Definition get_item (t : Table) (pk sk : string) : option Item :=
  find (has_key pk sk) t.

Fixpoint insert_by_SK (x : Item) (l : list Item) : list Item :=
  match l with
  | [] => [x]
  | y :: l' =>
      if String.leb (SK x) (SK y) then x :: l else y :: insert_by_SK x l'
  end.

Definition sort_by_SK (l : list Item) : list Item :=
  fold_right insert_by_SK [] l.

(** [table.query(KeyConditionExpression='PK = :pk', ScanIndexForward=...,
    Limit=...)] *)
Definition query (t : Table) (pk : string) (ScanIndexForward : bool)
    (Limit : nat) : list Item :=
  let items := sort_by_SK (filter (fun x => String.eqb (PK x) pk) t) in
  firstn Limit (if ScanIndexForward then items else rev items).

(** Truthiness of an optional string or integer argument. *)
Definition truthy_str (o : option string) : bool :=
  match o with
  | Some s => negb (String.eqb s "")
  | None => false
  end.

Definition truthy_int (o : option Z) : bool :=
  match o with
  | Some n => negb (n =? 0)%Z
  | None => false
  end.

Definition create_review (t : Table) (review : Review) : Table * Item :=
  let item :=
    {| PK := "REVIEW#" ++ r_review_id review;
       SK := "VERSION#" ++ Py.str_of_int (version review);
       GSI1PK :=
         if truthy_str (spacelift_run_id review)
         then "SPACELIFT_RUN#"
              ++ match spacelift_run_id review with
                 | Some s => s
                 | None => ""
                 end
         else "REVIEW#" ++ r_review_id review;
       GSI1SK := "CREATED#" ++ created_at review;
       GSI2PK := "STATUS#" ++ ReviewStatus_value (status review);
       GSI2SK := "CREATED#" ++ created_at review;
       attributes := review |} in
  (put_item t item, item).

Definition get_review (t : Table) (review_id : string)
    (version : option Z) : option Item :=
  if truthy_int version
  then get_item t ("REVIEW#" ++ review_id)
                ("VERSION#"
                 ++ Py.str_of_int (match version with
                                   | Some v => v
                                   | None => 0
                                   end))
  else
    (* Get latest version *)
    match query t ("REVIEW#" ++ review_id) false 1 with
    | [] => None
    | item :: _ => Some item
    end.

(** The keys an update carries: [None] is an absent key.  [version] and
    [previous_version_id] are left out, being overridden by the merge. *)
Record update_data : Type := {
  u_status : option ReviewStatus;
  u_ai_review_result : option (option AIReviewResult);
  u_updated_at : option string
}.

Definition or_else {A} (o : option A) (a : A) : A :=
  match o with Some x => x | None => a end.

Definition update_review (t : Table) (review_id : string)
    (update : update_data) : Table * result Item :=
  (* Get current version *)
  match get_review t review_id None with
  | None =>
      (t, Raise (Py.ValueError ("Review " ++ review_id ++ " not found")))
  | Some current_item =>
      let current := attributes current_item in
      (* Increment version *)
      let new_version := (version current + 1)%Z in
      (* Create new version *)
      let previous_version_id :=
        review_id ++ "#VERSION#" ++ Py.str_of_int (version current) in
      let new_review :=
        {| r_review_id := r_review_id current;
           terraform_code := terraform_code current;
           spacelift_run_id := spacelift_run_id current;
           spacelift_context := spacelift_context current;
           status := or_else (u_status update) (status current);
           ai_review_result :=
             or_else (u_ai_review_result update) (ai_review_result current);
           created_at := created_at current;
           updated_at := or_else (u_updated_at update) (updated_at current);
           version := new_version;
           previous_version_id := Some previous_version_id |} in
      let '(t', item) := create_review t new_review in
      (t', Return item)
  end.

(** The version numbers stored for a review id. *)
Definition versions_of (t : Table) (review_id : string) : list Z :=
  map (fun x => version (attributes x))
      (filter (fun x => String.eqb (PK x) ("REVIEW#" ++ review_id)) t).

End DynamoDBClient.

(** ** The specification's formulas and the inputs of its scenarios *)

Module Spec.
Import Models.
Local Open Scope float_scope.

(** [clamp01(x) = min(1, max(0, x))] *)
Definition clamp01 (x : float) : float := Py.min 1.0 (Py.max 0.0 x).

(** The security component as the specification writes it:
    [clamp01(min(1, (high*1.0 + medium*0.5 + low*0.2) / 10))], multiplied by
    1.5 and clamped again when [high > 0].  No reference to
    [total_findings]. *)
Definition security_score (security : SecurityAnalysis) : result float :=
  t_high <- Py.int_mul_float (high_severity security) 1.0 ;;
  t_medium <- Py.int_mul_float (medium_severity security) 0.5 ;;
  t_low <- Py.int_mul_float (low_severity security) 0.2 ;;
  let s := clamp01 (Py.min 1.0 ((t_high + t_medium + t_low) / 10.0)) in
  Return (if (0 <? high_severity security)%Z then clamp01 (s * 1.5) else s).

(** Scenario A: two high and one medium finding out of three. *)
Definition scenario_A (fs : list Finding) : SecurityAnalysis :=
  {| total_findings := 3; high_severity := 2; medium_severity := 1;
     low_severity := 0; findings := fs |}.

(** Scenario B: 5000 a month and three optimizations. *)
Definition scenario_B (o1 o2 o3 : Finding) : CostAnalysis :=
  {| estimated_monthly_cost := 5000.0; estimated_annual_cost := 60000.0;
     cost_optimizations := [o1; o2; o3]; resource_count := 1 |}.

(** Scenario C: reported reliability 0.9 and one single point of failure. *)
Definition scenario_C (p : Finding) : ReliabilityAnalysis :=
  {| reliability_score := 0.9; single_points_of_failure := [p];
     recommendations := [] |}.

(** Severity counts reported next to [total_findings = 0]. *)
Definition uncounted : SecurityAnalysis :=
  {| total_findings := 0; high_severity := 2; medium_severity := 1;
     low_severity := 0; findings := [] |}.

(** The same aggregate with its severity counts erased. *)
Definition without_counts (security : SecurityAnalysis) : SecurityAnalysis :=
  {| total_findings := total_findings security; high_severity := 0;
     medium_severity := 0; low_severity := 0;
     findings := findings security |}.

(** *** Schema validation, in words *)

(** A field of a JSON object; nothing else has fields. *)
Definition field (v : pyval) (key : string) : option pyval :=
match v with
| PyDict d => Py.lookup key d
| _ => None
end.

Definition present (o : option pyval) : bool :=
match o with Some _ => true | None => false end.

Definition is_list (o : option pyval) : bool :=
match o with Some (PyList _) => true | _ => false end.

(** A number of the unit interval; Python counts [True] and [False] as the
    integers 1 and 0. *)
Definition unit_number (o : option pyval) : bool :=
match o with
| Some (PyFloat f) => PrimFloat.leb 0 f && PrimFloat.leb f 1
| Some (PyInt n) => (0 <=? n)%Z && (n <=? 1)%Z
| Some (PyBool _) => true
| _ => false
end.

Definition is_number (o : option pyval) : bool :=
match o with
| Some (PyFloat _) | Some (PyInt _) | Some (PyBool _) => true
| _ => false
end.

Definition pr_review_keys : list string :=
["security_analysis"; "cost_analysis"; "reliability_analysis";
 "overall_risk_score"; "fix_suggestions"; "review_metadata"].

Definition has_required_keys (d : list (string * pyval)) : bool :=
forallb (fun key => present (Py.lookup key d)) pr_review_keys.

(** The violations the specification lists for a [pr_review] payload. *)
Definition violates_listed_rules (d : list (string * pyval)) : bool :=
negb (has_required_keys d)
|| negb (is_list (field (Py.get d "security_analysis" PyNone) "findings"))
|| negb (is_list (field (Py.get d "cost_analysis" PyNone)
                        "cost_optimizations"))
|| negb (unit_number (field (Py.get d "reliability_analysis" PyNone)
                            "reliability_score"))
|| negb (unit_number (Py.lookup "overall_risk_score" d)).

(** What the validator accepts: the six keys; [total_findings] present and
    [findings] a list in the security analysis; [estimated_monthly_cost] a
    number in the cost analysis; [reliability_score] and
    [overall_risk_score] numbers of the unit interval.  The list of cost
    optimizations is not looked at. *)
Definition accepted (d : list (string * pyval)) : bool :=
has_required_keys d
&& present (field (Py.get d "security_analysis" PyNone) "total_findings")
&& is_list (field (Py.get d "security_analysis" PyNone) "findings")
&& is_number (field (Py.get d "cost_analysis" PyNone)
                    "estimated_monthly_cost")
&& unit_number (field (Py.get d "reliability_analysis" PyNone)
                      "reliability_score")
&& unit_number (Py.lookup "overall_risk_score" d).

(** Values in which [None] occurs nowhere. *)
Fixpoint none_free (v : pyval) : bool :=
match v with
| PyNone => false
| PyList l => forallb none_free l
| PyDict d => forallb (fun kv => let '(_, x) := kv in none_free x) d
| _ => true
end.

(** Writing a value to the table and reading it back. *)
Definition stored_and_read (v : pyval) : pyval :=
DynamoDBClient._deserialize (DynamoDBClient._serialize v).

(** Items in ascending order of their sort keys. *)
Fixpoint ascending (l : list DynamoDBClient.Item) : Prop :=
match l with
| [] => True
| x :: l' =>
    (forall y, In y l' ->
       String.leb (DynamoDBClient.SK x) (DynamoDBClient.SK y) = true)
    /\ ascending l'
end.

(** The fields of a payload, when it is a JSON object. *)
Definition fields (v : pyval) : list (string * pyval) :=
match v with PyDict d => d | _ => [] end.

End Spec.

(** ** Signs of binary64 values

    A float is [fnonneg] when it is [+0], a positive finite number or
    [+infinity]; it is [fposfin] when it is a positive finite number. *)

Definition sf_signed (s : bool) (x : spec_float) : Prop :=
  match x with
  | S754_zero s' | S754_infinity s' | S754_finite s' _ _ => s' = s
  | S754_nan => False
  end.

Definition fnonneg (x : float) : Prop := sf_signed false (Prim2SF x).

Definition fposfin (x : float) : Prop :=
  match Prim2SF x with S754_finite false _ _ => True | _ => False end.

(** ** Concrete payloads *)

Module Samples.
Import Models BedrockService.
Local Open Scope float_scope.

(** A finding as a model would report it, with its own confidence. *)
Definition finding_payload : pyval :=
  PyDict [("finding_id", PyStr "sec-1"); ("category", PyStr "security");
          ("severity", PyStr "high"); ("title", PyStr "Public bucket");
          ("description", PyStr "The bucket is world readable");
          ("line_number", PyInt 10); ("file_path", PyStr "main.tf");
          ("recommendation", PyStr "Block public access");
          ("confidence_score", PyFloat 0.5)].

Definition pr_review_payload_with (cost_optimizations : pyval)
    (security_extra : list (string * pyval)) : pyval :=
  PyDict [("security_analysis",
           PyDict (security_extra ++
                   [("high_severity", PyInt 1);
                    ("medium_severity", PyInt 0);
                    ("low_severity", PyInt 0);
                    ("findings", PyList [finding_payload])]));
          ("cost_analysis",
           PyDict [("estimated_monthly_cost", PyFloat 10.0);
                   ("estimated_annual_cost", PyFloat 120.0);
                   ("resource_count", PyInt 1);
                   ("cost_optimizations", cost_optimizations)]);
          ("reliability_analysis",
           PyDict [("reliability_score", PyFloat 0.9);
                   ("single_points_of_failure", PyList []);
                   ("recommendations", PyList [])]);
          ("overall_risk_score", PyFloat 0.3);
          ("fix_suggestions", PyList []);
          ("review_metadata",
           PyDict [("model_used", PyStr "claude-3-5-sonnet")])].

(** A payload that passes [_validate_pr_review_schema]. *)
Definition pr_review_payload : pyval :=
  pr_review_payload_with (PyList []) [("total_findings", PyInt 1)].

(** The same payload with a string where the list of cost optimizations
    belongs. *)
Definition payload_bad_optimizations : pyval :=
  pr_review_payload_with (PyStr "none") [("total_findings", PyInt 1)].

(** The same payload without [security_analysis.total_findings]. *)
Definition payload_no_total : pyval :=
  pr_review_payload_with (PyList []) [].


Definition sonnet : model_config :=
  {| id := "anthropic.claude-3-5-sonnet-20241022-v2:0";
     name := "Claude 3.5 Sonnet"; max_tokens := 4096;
     temperature := 0.1; use_case := "primary" |}.

(** A runtime that throttles every request, one that rejects every request
    as malformed. *)
Definition always_throttled (_ : model_config) (_ : string) (_ : nat)
  : result string := Raise (Py.ClientError "ThrottlingException").

Definition always_rejected (_ : model_config) (_ : string) (_ : nat)
  : result string := Raise (Py.ClientError "ValidationException").

Definition no_json (_ : string) : option pyval := None.

Definition prompt_pr (_ : string) (_ : list (string * pyval)) (_ : string)
  : result string := Return "Analyze the following Terraform code".
Definition prompt_fa (_ _ : string) : result string :=
  Return "Analyze the following Terraform code failure".
Definition prompt_fe (_ : string) : result string :=
  Return "Compare the effectiveness of fixes".

(** *** Reviews and their history *)

(** The fallback aggregate as [ai_reviewer.py] stores it, with the id of the
    review filled in. *)
Definition degraded_result : AIReviewResult :=
let fb := _create_fallback_result "2026-01-01T00:00:00" in
{| review_id := "r-1";
   security_analysis := security_analysis fb;
   cost_analysis := cost_analysis fb;
   reliability_analysis := reliability_analysis fb;
   overall_risk_score := overall_risk_score fb;
   fix_suggestions := fix_suggestions fb;
   review_metadata := review_metadata fb |}.

Definition fresh_review : Review :=
{| r_review_id := "r-1"; terraform_code := "resource {}";
   spacelift_run_id := Some "run-7"; spacelift_context := [];
   status := PENDING;
   ai_review_result := Some degraded_result;
   created_at := "2026-01-01T00:00:00"; updated_at := "2026-01-01T00:00:00";
   version := 1; previous_version_id := None |}.

Definition set_status (s : ReviewStatus) : DynamoDBClient.update_data :=
{| DynamoDBClient.u_status := Some s;
   DynamoDBClient.u_ai_review_result := None;
   DynamoDBClient.u_updated_at := None |}.

(** The table after creating [fresh_review] and updating it [n] times. *)
Fixpoint history (n : nat) : DynamoDBClient.Table :=
match n with
| O => fst (DynamoDBClient.create_review [] fresh_review)
| S k => fst (DynamoDBClient.update_review (history k) "r-1"
                                           (set_status IN_PROGRESS))
end.

(** A security finding as the review prompt asks for it: no cost impact. *)
Definition plain_finding : Finding :=
{| finding_id := "sec-1"; category := "security"; severity := HIGH;
   title := "Public bucket"; description := "The bucket is world readable";
   line_number := Some 10%Z; file_path := Some "main.tf";
   recommendation := "Block public access"; estimated_cost_impact := None;
   confidence_score := 0.95 |}.

Definition plain_result : AIReviewResult :=
{| review_id := "r-1";
   security_analysis :=
     {| total_findings := 1; high_severity := 1; medium_severity := 0;
        low_severity := 0; findings := [plain_finding] |};
   cost_analysis :=
     {| estimated_monthly_cost := 10.0; estimated_annual_cost := 120.0;
        cost_optimizations := []; resource_count := 1 |};
   reliability_analysis :=
     {| reliability_score := 0.9; single_points_of_failure := [];
        recommendations := [] |};
   overall_risk_score := 0.3;
   fix_suggestions := [];
   review_metadata := [("model_used", PyStr "claude-3-5-sonnet")] |}.

End Samples.

From Stdlib Require DecimalZ.

(** ** risk_scoring.py, the remaining functions *)

Module RiskScoringRest.
Import Models.
Local Open Scope float_scope.

(** [sum] over floats: the start value is the integer 0, which the first
    addition converts to [0.0]. *)
Definition sum (xs : list float) : float := fold_left PrimFloat.add xs 0.0.

(** [x / y] on floats; a zero divisor of either sign raises. *)
Definition truediv (x y : float) : result float :=
  if PrimFloat.eqb y 0.0 then Raise (Py.OtherError "ZeroDivisionError")
  else Return (x / y).

(** [SEVERITY_WEIGHTS.get(finding.severity.value, 0.5)] *)
Definition severity_weight (finding : Finding) : float :=
  Py.get RiskScoringAlgorithm.SEVERITY_WEIGHTS
         (RiskLevel_value (severity finding)) 0.5.

Definition calculate_finding_risk (finding : Finding) : float :=
  let severity_weight := severity_weight finding in
  let confidence_adjustment := confidence_score finding in
  severity_weight * confidence_adjustment.

Definition calculate_category_risk (findings : list Finding)
    (category : string) : result float :=
  match findings with
  | [] => Return 0.0
  | _ =>
      let category_findings :=
        filter (fun f => String.eqb (Models.category f) category) findings in
      match category_findings with
      | [] => Return 0.0
      | _ =>
          let total_risk := sum (map calculate_finding_risk category_findings) in
          d <- Py.float_of_int
                 (Z.max 1 (Z.of_nat (List.length category_findings))) ;;
          q <- truediv total_risk d ;;
          Return (Py.min 1.0 q)
      end
  end.

End RiskScoringRest.

Module ConfidenceScoringRest.
Import Models.
Local Open Scope float_scope.

Definition has_value {A} (o : option A) : bool :=
  match o with Some _ => true | None => false end.

(** [zip] of two lists, multiplied pairwise. *)
Fixpoint products (xs ys : list float) : list float :=
  match xs, ys with
  | x :: xs', y :: ys' => (x * y) :: products xs' ys'
  | _, _ => []
  end.

Definition calculate_overall_confidence (findings : list Finding)
    (model_used : string) : result float :=
  match findings with
  | [] => Return 0.0
  | _ =>
      confidences <-
        Pydantic.mapM
          (fun f =>
             ConfidenceScoringAlgorithm.calculate_finding_confidence
               f model_used (has_value (line_number f))
               (has_value (file_path f)))
          findings ;;
      let weights := map RiskScoringRest.severity_weight findings in
      let weighted_sum := RiskScoringRest.sum (products confidences weights) in
      let total_weight := RiskScoringRest.sum weights in
      (* max(1, total_weight): the integer 1 unless the float is above it *)
      if 1.0 <? total_weight
      then RiskScoringRest.truediv weighted_sum total_weight
      else d <- Py.float_of_int 1 ;; RiskScoringRest.truediv weighted_sum d
  end.

Definition adjust_confidence_by_consistency
    (base_confidence consistency_score : float) : float :=
  let consistency_bonus := (consistency_score - 0.5) * 0.1 in
  Py.min 1.0 (Py.max 0.0 (base_confidence + consistency_bonus)).

End ConfidenceScoringRest.

(** Membership in the closed unit interval, as float comparisons. *)
Definition in_unit (x : float) : bool :=
  PrimFloat.leb 0 x && PrimFloat.leb x 1.

(** ** bedrock_service.py, the two analyses *)

Module BedrockRest.
Import Models BedrockService.
Local Open Scope float_scope.

Section Analyses.

Variable utcnow_isoformat : string.
Variable json_loads : string -> option pyval.
Variable claude_reply : model_config -> string -> nat -> result string.
Variable llama_reply : model_config -> string -> nat -> result string.

(** The two prompt templates with all their arguments: code, error details
    and previous review; original and fixed code with their findings; the
    prompt version comes last. *)
Variable _get_failure_analysis_prompt :
  string -> pyval -> option pyval -> string -> result string.
Variable _get_fix_effectiveness_prompt :
  string -> string -> list pyval -> list pyval -> string -> result string.

Definition _create_fallback_failure_analysis : pyval :=
  PyDict
    [("root_cause", PyStr "Unable to analyze - AI service unavailable");
     ("contributing_factors", PyList []);
     ("severity", PyStr "unknown");
     ("recommendations",
      PyList
        [PyDict
           [("priority", PyStr "high");
            ("action", PyStr "Retry analysis or check AI service status");
            ("explanation",
             PyStr "AI service was unavailable during analysis")]]);
     ("related_findings", PyList []);
     ("prevention_strategies", PyList []);
     ("confidence_score", PyFloat 0.0);
     ("analysis_metadata",
      PyDict [("error", PyStr "AI service unavailable");
              ("analysis_timestamp", PyStr utcnow_isoformat)])].

Definition zero_counts : pyval :=
  PyDict [("total", PyInt 0); ("security", PyInt 0); ("cost", PyInt 0);
          ("reliability", PyInt 0)].

Definition _create_fallback_fix_analysis : pyval :=
  PyDict
    [("fix_effectiveness_score", PyFloat 0.0);
     ("findings_resolved", zero_counts);
     ("findings_remaining", zero_counts);
     ("risk_reduction",
      PyDict [("before", PyFloat 0.0); ("after", PyFloat 0.0);
              ("reduction_percentage", PyFloat 0.0)]);
     ("fix_analysis", PyList []);
     ("remaining_issues", PyList []);
     ("recommendations", PyList []);
     ("confidence_score", PyFloat 0.0);
     ("analysis_metadata",
      PyDict [("error", PyStr "AI service unavailable");
              ("analysis_timestamp", PyStr utcnow_isoformat)])].

(** The [try] body both analyses run for one backend. *)
Definition try_analysis (mc : model_config) (prompt prompt_type : string)
  : io pyval :=
  io_bind (_invoke_model claude_reply llama_reply mc prompt) (fun result =>
  io_lift (_parse_and_validate_json json_loads result prompt_type)).

(** [for model_config in self.MODELS: try ... except Exception: continue],
    then the fallback; the loop is the same in both analyses. *)
Fixpoint analysis_loop (models : list model_config)
    (prompt prompt_type : string) (fallback : pyval) : io pyval :=
  match models with
  | [] => io_ret fallback
  | mc :: rest =>
      fun w =>
        match try_analysis mc prompt prompt_type w with
        | (Return parsed_result, w1) => (Return parsed_result, w1)
        | (Raise _, w1) => analysis_loop rest prompt prompt_type fallback w1
        end
  end.

Definition analyze_failure (terraform_code : string)
    (error_details : pyval) (previous_review : option pyval) : io pyval :=
  io_bind
    (io_lift (_get_failure_analysis_prompt terraform_code error_details
                                           previous_review "v1.3"))
    (fun prompt =>
       analysis_loop MODELS prompt "failure_analysis"
                     _create_fallback_failure_analysis).

Definition compare_fix_effectiveness (original_code fixed_code : string)
    (original_findings fixed_findings : list pyval) : io pyval :=
  io_bind
    (io_lift (_get_fix_effectiveness_prompt original_code fixed_code
                                            original_findings
                                            fixed_findings "v1.0"))
    (fun prompt =>
       analysis_loop MODELS prompt "fix_effectiveness"
                     _create_fallback_fix_analysis).

End Analyses.

(** Seconds slept in total. *)
Definition total (seconds : list Z) : Z := fold_right Z.add 0%Z seconds.

(** A run that starts in [w] and ends in [w'] sent at most [requests]
    requests and slept at most [seconds] seconds. *)
Definition costs_at_most (requests : nat) (seconds : Z) (w w' : world)
  : Prop :=
  (calls w <= calls w' <= calls w + requests)%nat
  /\ exists naps, slept w' = (slept w ++ naps)%list
                  /\ (0 <= total naps <= seconds)%Z.

(** The test [key in data] as the schema checks use it, on whatever
    [json.loads] returned: a key of an object, an element of an array, a
    substring of a string; numbers, booleans and [null] make it raise. *)
Definition key_test (data : pyval) (key : string) : bool :=
  match data with
  | PyDict d => Spec.present (Py.lookup key d)
  | PyList l => existsb (Py.is_str key) l
  | PyStr s => Py.contains key s
  | _ => false
  end.

(** Text in which the character [c] does not occur. *)
Fixpoint lacks (c : ascii) (s : string) : bool :=
  match s with
  | EmptyString => true
  | String a s' => negb (Ascii.eqb a c) && lacks c s'
  end.

End BedrockRest.

(** ** dynamodb_client.py, the queries *)

Module DynamoDBRest.
Import Models DynamoDBClient.

Fixpoint insert_by (key : Item -> string) (x : Item) (l : list Item)
  : list Item :=
  match l with
  | [] => [x]
  | y :: l' =>
      if String.leb (key x) (key y) then x :: l else y :: insert_by key x l'
  end.

Definition sort_by (key : Item -> string) (l : list Item) : list Item :=
  fold_right (insert_by key) [] l.

(** [Limit] must be at least one; boto3 refuses the request otherwise. *)
Definition check_limit (Limit : Z) : result nat :=
  if (Limit <? 1)%Z then Raise (Py.OtherError "ParamValidationError")
  else Return (Z.to_nat Limit).

(** [table.query(IndexName=..., KeyConditionExpression=..., Limit=...)] on
    a global secondary index: the items whose index partition key is [pk]
    and, with a cutoff, whose index sort key is at least the cutoff, in
    the byte order of the index sort key.  The order among items with the
    same index sort key is the service's choice. *)
Definition query_index (pk_of sk_of : Item -> string) (t : Table)
    (pk : string) (cutoff : option string) (ScanIndexForward : bool)
    (Limit : Z) : result (list Item) :=
  n <- check_limit Limit ;;
  let matching :=
    filter (fun x =>
              String.eqb (pk_of x) pk
              && match cutoff with
                 | Some c => String.leb c (sk_of x)
                 | None => true
                 end) t in
  let items := sort_by sk_of matching in
  Return (firstn n (if ScanIndexForward then items else rev items)).




Section Clock.

(** [(datetime.utcnow() - timedelta(days=days)).isoformat()]; it raises
    [OverflowError] when [days] is beyond what [timedelta] takes or the
    date falls off the calendar. *)
Variable cutoff_date : Z -> result string.




Definition query_reviews_by_stack (t : Table) (stack_id : string)
    (days : option Z) (limit : Z) : result (list Item) :=
  cutoff <-
    (if truthy_int days
     then cutoff <- cutoff_date (or_else days 0%Z) ;;
          Return (Some ("CREATED#" ++ cutoff))
     else Return None) ;;
  query_index GSI1PK GSI1SK t ("STACK#" ++ stack_id) cutoff false limit.


End Clock.


(** The item [create_review] writes for a review. *)
Definition item_of (review : Review) : Item := snd (create_review [] review).

(** Tables written through [create_review] and [update_review] only. *)
Definition written_by_client (t : Table) : Prop :=
  Forall (fun x => x = item_of (attributes x)) t.

(** Tables whose rows carry the keys [create_review] builds from the id
    and the version of the review. *)
Definition keyed_by_client (t : Table) : Prop :=
  Forall (fun x =>
            PK x = "REVIEW#" ++ r_review_id (attributes x)
            /\ SK x = "VERSION#" ++ Py.str_of_int (version (attributes x)))
         t.

End DynamoDBRest.

(** ** Results every field of which is present *)

Module Complete.
Import Models.

Definition has_value {A} (o : option A) : bool :=
  match o with Some _ => true | None => false end.

(** The constraints [models.py] puts on the scores:
    [Field(ge=0.0, le=1.0)]. *)
Definition valid_finding (f : Finding) : bool :=
  in_unit (confidence_score f).

Definition valid_fix (f : FixSuggestion) : bool :=
  match effectiveness_score f with
  | Some e => in_unit e
  | None => true
  end.

Definition valid_result (r : AIReviewResult) : bool :=
  forallb valid_finding (findings (security_analysis r))
  && forallb valid_finding (cost_optimizations (cost_analysis r))
  && in_unit (reliability_score (reliability_analysis r))
  && forallb valid_finding
             (single_points_of_failure (reliability_analysis r))
  && in_unit (overall_risk_score r)
  && forallb valid_fix (fix_suggestions r).





End Complete.

Module MoreSamples.
Import Models DynamoDBClient.

(** A second review of the same Spacelift run. *)
Definition second_review : Review :=
{| r_review_id := "r-2"; terraform_code := "module {}";
   spacelift_run_id := Some "run-7"; spacelift_context := [];
   status := PENDING;
   ai_review_result := None;
   created_at := "2026-01-02T00:00:00"; updated_at := "2026-01-02T00:00:00";
   version := 1; previous_version_id := None |}.

Definition two_reviews : Table :=
  fst (create_review (fst (create_review [] Samples.fresh_review))
                     second_review).


(** A clock that reads 2026-01-01: the cutoffs for a week and for thirty
    days; the other periods are off its calendar. *)
Definition clock_2026 (days : Z) : result string :=
  if (days =? 7)%Z then Return "2025-12-25T00:00:00"
  else if (days =? 30)%Z then Return "2025-12-02T00:00:00"
  else Raise Py.OverflowError.

(** Version 2 of the first review, as the first update writes it. *)
Definition second_version : Review :=
{| r_review_id := "r-1"; terraform_code := "resource {}";
   spacelift_run_id := Some "run-7"; spacelift_context := [];
   status := IN_PROGRESS;
   ai_review_result := Some Samples.degraded_result;
   created_at := "2026-01-01T00:00:00"; updated_at := "2026-01-01T00:00:00";
   version := 2; previous_version_id := Some "r-1#VERSION#1" |}.

(** A third review, written twice with different contents. *)
Definition third_review (s : ReviewStatus) (code : string) : Review :=
{| r_review_id := "r-3"; terraform_code := code;
   spacelift_run_id := None; spacelift_context := [];
   status := s;
   ai_review_result := None;
   created_at := "2026-01-03T00:00:00"; updated_at := "2026-01-03T00:00:00";
   version := 1; previous_version_id := None |}.




End MoreSamples.

(** * Properties *)

(** ** Rounding keeps the sign *)

Section Rounding.
Variables prec emax : Z.

Lemma shr_1_nonneg mrs : (0 <= shr_m mrs)%Z -> (0 <= shr_m (shr_1 mrs))%Z.
Proof.
  destruct mrs as [m r s]; simpl.
  destruct m as [|p|p]; [simpl; lia | | lia].
  intros _. destruct p; simpl; lia.
Qed.

Lemma iter_shr_1_nonneg p : forall mrs,
  (0 <= shr_m mrs)%Z -> (0 <= shr_m (iter_pos shr_1 p mrs))%Z.
Proof.
  induction p as [p IH|p IH|]; intros mrs H; simpl.
  - apply IH, IH, shr_1_nonneg, H.
  - apply IH, IH, H.
  - apply shr_1_nonneg, H.
Qed.

Lemma shr_nonneg mrs e n :
  (0 <= shr_m mrs)%Z -> (0 <= shr_m (fst (shr mrs e n)))%Z.
Proof.
  intros H. destruct n; simpl; auto. apply iter_shr_1_nonneg, H.
Qed.

Lemma shr_record_of_loc_m m l : shr_m (shr_record_of_loc m l) = m.
Proof. destruct l as [|[]]; reflexivity. Qed.

Lemma shr_fexp_nonneg m e l :
  (0 <= m)%Z -> (0 <= shr_m (fst (shr_fexp prec emax m e l)))%Z.
Proof.
  intros H. unfold shr_fexp. apply shr_nonneg.
  rewrite shr_record_of_loc_m. exact H.
Qed.

Lemma round_nearest_even_nonneg m l :
  (0 <= m)%Z -> (0 <= round_nearest_even m l)%Z.
Proof.
  intros H. destruct l as [|[]]; simpl; try lia.
  destruct (Z.even m); lia.
Qed.

Lemma binary_round_aux_signed sx mx ex lx :
  (0 <= mx)%Z -> sf_signed sx (binary_round_aux prec emax sx mx ex lx).
Proof.
  intros H. unfold binary_round_aux.
  pose proof (shr_fexp_nonneg mx ex lx H) as H1.
  destruct (shr_fexp prec emax mx ex lx) as [mrs' e']. simpl in H1.
  pose proof (shr_fexp_nonneg _ e' loc_Exact
                (round_nearest_even_nonneg _ (loc_of_shr_record mrs') H1))
    as H2.
  destruct (shr_fexp prec emax _ e' loc_Exact) as [mrs'' e''].
  simpl in H2.
  destruct (shr_m mrs'') as [|p|p]; simpl; [reflexivity | | lia].
  destruct (e'' <=? emax - prec)%Z; reflexivity.
Qed.

Lemma binary_round_signed sx mx ex :
  sf_signed sx (binary_round prec emax sx mx ex).
Proof.
  unfold binary_round.
  destruct (shl_align mx ex _) as [mz ez].
  apply binary_round_aux_signed. lia.
Qed.

Lemma binary_normalize_nonneg m e :
  (0 <= m)%Z -> sf_signed false (binary_normalize prec emax m e false).
Proof.
  intros H. destruct m; simpl; auto; [apply binary_round_signed | lia].
Qed.

Lemma SFmul_finite_signed x sx sy my ey :
  sf_signed sx x ->
  sf_signed (xorb sx sy) (SFmul prec emax x (S754_finite sy my ey)).
Proof.
  destruct x; simpl; intros; subst; try contradiction; try reflexivity.
  apply binary_round_aux_signed. lia.
Qed.

Lemma SFadd_nonneg x y :
  sf_signed false x -> sf_signed false y ->
  sf_signed false (SFadd prec emax x y).
Proof.
  destruct x, y; simpl; intros; subst; try contradiction; try reflexivity.
  apply binary_normalize_nonneg. simpl. lia.
Qed.

Lemma SFdiv_finite_signed x sx sy my ey :
  sf_signed sx x ->
  sf_signed (xorb sx sy) (SFdiv prec emax x (S754_finite sy my ey)).
Proof.
  destruct x; simpl; intros; subst; try contradiction; try reflexivity.
  unfold SFdiv_core_binary.
  set (m' := match _ with Z0 => _ | Zpos _ => _ | Zneg _ => _ end).
  assert (Hm' : (0 <= m')%Z).
  { subst m'. destruct (_ - _ - _)%Z; try lia.
    apply Z.shiftl_nonneg. lia. }
  pose proof (Z_div_mod m' (Zpos my) ltac:(lia)) as Hd.
  destruct (Z.div_eucl m' (Zpos my)) as [q r].
  apply binary_round_aux_signed. nia.
Qed.

Lemma SFldexp_nonneg y e :
  sf_signed false y -> sf_signed false (SFldexp prec emax y e).
Proof.
  destruct y; simpl; auto. intros ->. apply binary_round_signed.
Qed.

End Rounding.

Section FloatSigns.
Local Open Scope float_scope.

Lemma of_uint63_nonneg n : fnonneg (of_uint63 n).
Proof.
  unfold fnonneg. rewrite of_uint63_spec.
  apply binary_normalize_nonneg.
  pose proof (Uint63.to_Z_bounded n). lia.
Qed.

Lemma SF2Prim_nonneg y : sf_signed false y -> fnonneg (SF2Prim y).
Proof.
  unfold fnonneg.
  destruct y as [s|s| |s m e]; simpl; try contradiction; intros ->.
  - reflexivity.
  - reflexivity.
  - rewrite Z_ldexp_spec. apply SFldexp_nonneg, of_uint63_nonneg.
Qed.

Lemma float_of_int_nonneg n f :
  (0 <= n)%Z -> Py.float_of_int n = Return f -> fnonneg f.
Proof.
  unfold Py.float_of_int. intros Hn.
  destruct (is_infinity _); intros H; inversion H; subst.
  apply SF2Prim_nonneg, binary_normalize_nonneg, Hn.
Qed.

Lemma fnonneg_mul x c : fnonneg x -> fposfin c -> fnonneg (x * c).
Proof.
  unfold fnonneg, fposfin. rewrite mul_spec. unfold SF64mul.
  destruct (Prim2SF c) as [| | |[] mc ec]; try contradiction.
  intros Hx _. apply (SFmul_finite_signed prec emax _ false false), Hx.
Qed.

Lemma fnonneg_add x y : fnonneg x -> fnonneg y -> fnonneg (x + y).
Proof.
  unfold fnonneg. rewrite add_spec. apply SFadd_nonneg.
Qed.

Lemma fnonneg_div x c : fnonneg x -> fposfin c -> fnonneg (x / c).
Proof.
  unfold fnonneg, fposfin. rewrite div_spec. unfold SF64div.
  destruct (Prim2SF c) as [| | |[] mc ec]; try contradiction.
  intros Hx _. apply (SFdiv_finite_signed prec emax _ false false), Hx.
Qed.

Lemma fposfin_nonneg c : fposfin c -> fnonneg c.
Proof.
  unfold fposfin, fnonneg.
  destruct (Prim2SF c) as [| | |[] mc ec]; simpl; auto; contradiction.
Qed.

Lemma fnonneg_cases y : fnonneg y -> (0 <? y) = true \/ y = 0.
Proof.
  unfold fnonneg. intros H. rewrite ltb_spec.
  destruct (Prim2SF y) as [s|s| |s m e] eqn:E; simpl in H;
    try contradiction; subst.
  - right. rewrite <- (SF2Prim_Prim2SF y), E. reflexivity.
  - left. reflexivity.
  - left. reflexivity.
Qed.

(** [max(0.0, y)] is [y] on non-negative floats. *)
Lemma max_zero_nonneg y : fnonneg y -> Py.max 0 y = y.
Proof.
  intros H. unfold Py.max.
  destruct (fnonneg_cases y H) as [-> | ->]; reflexivity.
Qed.

Lemma min_nonneg a x : fnonneg a -> fnonneg x -> fnonneg (Py.min a x).
Proof. intros. unfold Py.min. destruct (x <? a); assumption. Qed.

Lemma min_idem a x : Py.min a (Py.min a x) = Py.min a x.
Proof.
  unfold Py.min. destruct (x <? a) eqn:E.
  - rewrite E. reflexivity.
  - destruct (a <? a) eqn:E'; reflexivity.
Qed.

(** Clamping a non-negative float to the unit interval only caps it. *)
Lemma clamp01_nonneg x : fnonneg x -> Spec.clamp01 x = Py.min 1 x.
Proof. intros H. unfold Spec.clamp01. rewrite max_zero_nonneg; auto. Qed.

Lemma fposfin_literals :
  fposfin 1 /\ fposfin 0.5 /\ fposfin 0.2 /\ fposfin 10 /\ fposfin 1.5.
Proof. repeat apply conj; vm_compute; exact I. Qed.

End FloatSigns.

(** ** Scoring engine *)

Section Scoring.
Import Models RiskScoringAlgorithm.
Local Open Scope float_scope.

(** Two results differ as soon as their payloads answer a test
    differently. *)
Lemma results_differ (p : float -> bool) (x y : float) :
  p x <> p y -> Return x <> Return y.
Proof. intros H E. inversion E. subst. apply H. reflexivity. Qed.

(** The weighted sum of non-negative counts, divided by ten, is a
    non-negative float. *)
Lemma weighted_nonneg h m l fh fm fl :
  (0 <= h)%Z -> (0 <= m)%Z -> (0 <= l)%Z ->
  Py.float_of_int h = Return fh ->
  Py.float_of_int m = Return fm ->
  Py.float_of_int l = Return fl ->
  fnonneg ((fh * 1.0 + fm * 0.5 + fl * 0.2) / 10.0).
Proof.
  intros Hh Hm Hl Eh Em El.
  destruct fposfin_literals as (P1 & P05 & P02 & P10 & _).
  apply fnonneg_div; [|exact P10].
  apply fnonneg_add; [apply fnonneg_add|]; apply fnonneg_mul;
    eauto using float_of_int_nonneg.
Qed.

(** C10: with [total_findings = 0] the security component is [0.0]
    whatever the severity counts are, and so the overall risk does not
    depend on them. *)
Theorem zero_total_findings_silences_counts (security : SecurityAnalysis) :
  total_findings security = 0%Z ->
  _calculate_security_score security = Return 0.0
  /\ forall cost reliability,
       calculate_overall_risk security cost reliability
       = calculate_overall_risk (Spec.without_counts security)
                                cost reliability.
Proof.
  intros H. unfold calculate_overall_risk, _calculate_security_score.
  simpl. rewrite H. split; reflexivity.
Qed.

(** The guard at work on two high and one medium finding reported next to
    [total_findings = 0]. *)
Lemma zero_total_findings_silences_counts_witness :
  _calculate_security_score Spec.uncounted = Return 0.0
  /\ forall cost reliability,
       calculate_overall_risk Spec.uncounted cost reliability
       = calculate_overall_risk (Spec.without_counts Spec.uncounted)
                                cost reliability.
Proof.
  apply (zero_total_findings_silences_counts Spec.uncounted). reflexivity.
Defined.

(** C7, as stated, fails: with [total_findings = 0] and two high, one
    medium finding the code answers [0.0] and the formula [0.375]. *)
Lemma security_formula_ignores_guard :
  _calculate_security_score Spec.uncounted
  <> Spec.security_score Spec.uncounted.
Proof.
  apply (results_differ (fun x => 0 <? x)). vm_compute. discriminate.
Qed.

(** C7, amended: for non-negative severity counts the security component
    is [0.0] when [total_findings] is 0, and otherwise equals the
    specification's formula (same value, or the same [OverflowError] when
    a count is too large for a float). *)
Theorem security_score_formula (security : SecurityAnalysis) :
  (0 <= high_severity security)%Z ->
  (0 <= medium_severity security)%Z ->
  (0 <= low_severity security)%Z ->
  _calculate_security_score security
  = if (total_findings security =? 0)%Z then Return 0.0
    else Spec.security_score security.
Proof.
  intros Hh Hm Hl.
  unfold _calculate_security_score, Spec.security_score.
  destruct (total_findings security =? 0)%Z; [reflexivity|].
  cbn [Py.getitem Py.lookup SEVERITY_WEIGHTS String.eqb Ascii.eqb
       Bool.eqb Py.bind].
  unfold Py.int_mul_float.
  destruct (Py.float_of_int (high_severity security)) as [fh|] eqn:Eh;
    [|reflexivity].
  destruct (Py.float_of_int (medium_severity security)) as [fm|] eqn:Em;
    [|reflexivity].
  destruct (Py.float_of_int (low_severity security)) as [fl|] eqn:El;
    [|reflexivity].
  cbn [Py.bind].
  pose proof (weighted_nonneg _ _ _ _ _ _ Hh Hm Hl Eh Em El) as Hx.
  set (x := (fh * 1.0 + fm * 0.5 + fl * 0.2) / 10.0) in *.
  destruct fposfin_literals as (P1 & _ & _ & _ & P15).
  assert (Hn : fnonneg (Py.min 1.0 x))
    by (apply min_nonneg; [apply fposfin_nonneg, P1 | exact Hx]).
  rewrite (clamp01_nonneg _ Hn), min_idem.
  destruct (0 <? high_severity security)%Z; [|reflexivity].
  rewrite clamp01_nonneg; [reflexivity|].
  apply fnonneg_mul; assumption.
Qed.

(** The formula on scenario A. *)
Lemma security_score_formula_witness :
  _calculate_security_score (Spec.scenario_A [])
  = Spec.security_score (Spec.scenario_A []).
Proof.
  apply (security_score_formula (Spec.scenario_A [])); simpl; lia.
Defined.

(** The reliability score of scenario C lies strictly below [0.2]. *)
Lemma scenario_C_is_not_a_fifth (p : Finding) :
  _calculate_reliability_score (Spec.scenario_C p) <> Return 0.2.
Proof.
  apply (results_differ (fun x => x <? 0.2)). vm_compute. discriminate.
Qed.

(** C8, as stated, fails on the reliability score: in binary64
    [(1.0 - 0.9) + 0.1] is not the float [0.2]. *)
Lemma scenario_C_reliability_is_not_a_fifth :
  ~ (forall p, _calculate_reliability_score (Spec.scenario_C p)
               = Return 0.2).
Proof.
  intros H.
  apply (scenario_C_is_not_a_fifth
           {| finding_id := "spof-1"; category := "reliability";
              severity := MEDIUM; title := ""; description := "";
              line_number := None; file_path := None;
              recommendation := ""; estimated_cost_impact := None;
              confidence_score := 0.9 |}).
  apply H.
Qed.

(** C8, amended: on the inputs of scenarios A to C the security and cost
    scores are the floats [0.375] and [0.8], the reliability score is
    [0.19999999999999998], the float just below [0.2]; the overall risk is
    exactly [0.4375] and its level is "medium". *)
Theorem scenarios_A_to_C (fs : list Finding) (o1 o2 o3 p : Finding) :
  _calculate_security_score (Spec.scenario_A fs) = Return 0.375
  /\ _calculate_cost_score (Spec.scenario_B o1 o2 o3) = Return 0.8
  /\ _calculate_reliability_score (Spec.scenario_C p)
     = Return 0.19999999999999998
  /\ next_down 0.2 = 0.19999999999999998
  /\ calculate_overall_risk (Spec.scenario_A fs)
       (Spec.scenario_B o1 o2 o3) (Spec.scenario_C p) = Return 0.4375
  /\ get_risk_level 0.4375 = "medium"%string.
Proof. repeat apply conj; vm_compute; reflexivity. Qed.

End Scoring.

(** ** Result builder *)

Section Builder.
Import Models BedrockService.

Lemma bind_raises {A B} (c : result A) (k : A -> result B) :
  (forall a, exists e, k a = Raise e) -> exists e, Py.bind c k = Raise e.
Proof.
  intros H. destruct c as [a|e]; simpl; [apply H | exists e; reflexivity].
Qed.

(** Whatever the payload, the builder ends in an exception: every path
    through it reaches the read of [review_metadata], unless an earlier
    statement has raised already. *)
Lemma build_review_result_raises (utcnow_isoformat : string)
    (parsed_data : pyval) (terraform_code : string)
    (spacelift_context : list (string * pyval)) :
  exists e,
    _build_review_result utcnow_isoformat parsed_data terraform_code
                         spacelift_context = Raise e.
Proof.
  unfold _build_review_result. cbv zeta.
  repeat first [ eexists; reflexivity | apply bind_raises; intro ].
Qed.

(** C1: the builder never hands back a result.  Whatever the payload, the
    run ends in an exception: at the latest when [review_metadata] is read
    for the model name, before the statement that assigns it. *)
Theorem build_review_result_never_returns (utcnow_isoformat : string)
    (parsed_data : pyval) (terraform_code : string)
    (spacelift_context : list (string * pyval)) :
  Py.returns (_build_review_result utcnow_isoformat parsed_data
                                   terraform_code spacelift_context)
  = false.
Proof.
  destruct (build_review_result_raises utcnow_isoformat parsed_data
              terraform_code spacelift_context) as [e E].
  rewrite E. reflexivity.
Qed.

(** On a payload that passes validation the exception is the unbound
    local. *)
Lemma build_review_result_on_valid_payload (utcnow_isoformat : string) :
  _validate_pr_review_schema Samples.pr_review_payload = Return tt
  /\ _build_review_result utcnow_isoformat Samples.pr_review_payload
                          "resource {}" []
     = Raise (Py.UnboundLocalError "review_metadata").
Proof. split; vm_compute; reflexivity. Qed.

End Builder.

(** ** Invocation pipeline *)

Section Pipeline.
Import Models BedrockService.

Variable utcnow_isoformat : string.
Variable json_loads : string -> option pyval.
Variables claude_reply llama_reply :
  model_config -> string -> nat -> result string.
Variable _get_pr_review_prompt :
  string -> list (string * pyval) -> string -> result string.
Variable _get_failure_analysis_prompt : string -> string -> result string.
Variable _get_fix_effectiveness_prompt : string -> result string.

Let fallback := _create_fallback_result utcnow_isoformat.

(** The loop over the backends ends in the fallback when each of them
    fails. *)
Lemma models_loop_fallback models prompt prompt_type code ctx : forall w,
  every_backend_fails utcnow_isoformat json_loads claude_reply llama_reply
                      models prompt prompt_type code ctx w ->
  exists w',
    models_loop utcnow_isoformat json_loads claude_reply llama_reply
                models prompt prompt_type code ctx w
    = (Return fallback, w').
Proof.
  induction models as [|mc rest IH]; intros w H; simpl in *.
  - exists w. reflexivity.
  - destruct (try_model _ _ _ _ mc prompt prompt_type code ctx w)
      as [[r|e] w1]; [contradiction|].
    apply IH, H.
Qed.

(** C4: when the prompt has been built and every configured backend
    fails, [review_terraform] returns the fallback aggregate: risk 0.5, no
    findings in any category, reliability 0.5, one recommendation saying
    the service was unavailable, and an [error] entry in the metadata. *)
Theorem fallback_when_every_backend_fails (terraform_code : string)
    (spacelift_context : option (list (string * pyval)))
    (prompt_type prompt : string) (w : world) :
  let context := match spacelift_context with Some d => d | None => [] end in
  _get_prompt_template _get_pr_review_prompt _get_failure_analysis_prompt
                       _get_fix_effectiveness_prompt
                       prompt_type terraform_code context = Return prompt ->
  every_backend_fails utcnow_isoformat json_loads claude_reply llama_reply
                      MODELS prompt prompt_type terraform_code context w ->
  (exists w',
     review_terraform utcnow_isoformat json_loads claude_reply llama_reply
                      _get_pr_review_prompt _get_failure_analysis_prompt
                      _get_fix_effectiveness_prompt
                      terraform_code spacelift_context prompt_type w
     = (Return fallback, w'))
  /\ overall_risk_score fallback = 0.5%float
  /\ total_findings (security_analysis fallback) = 0%Z
  /\ high_severity (security_analysis fallback) = 0%Z
  /\ medium_severity (security_analysis fallback) = 0%Z
  /\ low_severity (security_analysis fallback) = 0%Z
  /\ findings (security_analysis fallback) = []
  /\ cost_optimizations (cost_analysis fallback) = []
  /\ single_points_of_failure (reliability_analysis fallback) = []
  /\ fix_suggestions fallback = []
  /\ reliability_score (reliability_analysis fallback) = 0.5%float
  /\ recommendations (reliability_analysis fallback)
     = ["Unable to complete analysis - AI service unavailable"]
  /\ Py.lookup "error" (review_metadata fallback)
     = Some (PyStr "AI service unavailable").
Proof.
  intros context Hprompt Hfail.
  split; [|repeat apply conj; reflexivity].
  unfold review_terraform, io_bind, io_lift.
  fold context. rewrite Hprompt.
  apply models_loop_fallback, Hfail.
Qed.

(** As the builder always raises, so does the [try] body of every backend,
    and every review whose prompt could be built ends in the fallback. *)
Lemma try_model_raises mc prompt prompt_type code ctx w :
  exists e w',
    try_model utcnow_isoformat json_loads claude_reply llama_reply
              mc prompt prompt_type code ctx w = (Raise e, w').
Proof.
  unfold try_model, io_bind, io_lift.
  destruct (_invoke_model claude_reply llama_reply mc prompt w)
    as [[text|e] w1]; [|eauto].
  destruct (_parse_and_validate_json json_loads text prompt_type)
    as [parsed|e]; [|eauto].
  destruct (build_review_result_raises utcnow_isoformat parsed code ctx)
    as [e E].
  rewrite E. eauto.
Qed.

Lemma every_backend_always_fails models prompt prompt_type code ctx :
  forall w,
    every_backend_fails utcnow_isoformat json_loads claude_reply llama_reply
                        models prompt prompt_type code ctx w.
Proof.
  induction models as [|mc rest IH]; intros w; simpl; [exact I|].
  destruct (try_model_raises mc prompt prompt_type code ctx w)
    as (e & w' & E).
  rewrite E. apply IH.
Qed.

Lemma review_terraform_always_degraded (terraform_code : string)
    (spacelift_context : option (list (string * pyval)))
    (prompt_type prompt : string) (w : world) :
  _get_prompt_template _get_pr_review_prompt _get_failure_analysis_prompt
                       _get_fix_effectiveness_prompt
                       prompt_type terraform_code
                       (match spacelift_context with
                        | Some d => d
                        | None => []
                        end) = Return prompt ->
  exists w',
    review_terraform utcnow_isoformat json_loads claude_reply llama_reply
                     _get_pr_review_prompt _get_failure_analysis_prompt
                     _get_fix_effectiveness_prompt
                     terraform_code spacelift_context prompt_type w
    = (Return fallback, w').
Proof.
  intros Hprompt.
  unfold review_terraform, io_bind, io_lift. rewrite Hprompt.
  apply models_loop_fallback, every_backend_always_fails.
Qed.

End Pipeline.

(** *** Retries *)

Section Retries.
Import Models BedrockService.

Variables claude_reply llama_reply :
  model_config -> string -> nat -> result string.

Let call := dispatch claude_reply llama_reply.

(** One attempt sends at most one request and never sleeps. *)
Lemma dispatch_effect mc prompt w r w1 :
  call mc prompt w = (r, w1) ->
  slept w1 = slept w /\ (calls w <= calls w1 <= S (calls w))%nat.
Proof.
  unfold call, dispatch, _invoke_claude, _invoke_llama, request, io_raise.
  destruct (Py.contains "claude" _); [|destruct (Py.contains "llama" _)];
    intros H; inversion H; subst; simpl; split; auto; lia.
Qed.


(** What one turn of the loop does with a failed attempt. *)
Lemma attempts_loop_failure attempt rest mc prompt w e w1 :
  call mc prompt w = (Raise e, w1) ->
  attempts_loop claude_reply llama_reply (attempt :: rest) mc prompt w
  = if retried e && (attempt <? max_retries - 1)%Z
    then attempts_loop claude_reply llama_reply rest mc prompt
                       (after_sleeping w1 [(backoff * 2 ^ attempt)%Z])
    else (Raise e, w1).
Proof.
  unfold call. intros H. simpl. rewrite H.
  destruct e; simpl; try reflexivity;
    destruct (_ <? _)%Z; try reflexivity;
    rewrite ?andb_true_r, ?andb_false_r;
    try destruct (String.eqb _ _); reflexivity.
Qed.

Lemma attempts_loop_retry attempt rest mc prompt w e w1 :
  call mc prompt w = (Raise e, w1) ->
  retried e = true -> (attempt <? max_retries - 1)%Z = true ->
  attempts_loop claude_reply llama_reply (attempt :: rest) mc prompt w
  = attempts_loop claude_reply llama_reply rest mc prompt
                  (after_sleeping w1 [(backoff * 2 ^ attempt)%Z]).
Proof.
  intros H R A. rewrite (attempts_loop_failure _ _ _ _ _ _ _ H), R, A.
  reflexivity.
Qed.

Lemma attempts_loop_raise attempt rest mc prompt w e w1 :
  call mc prompt w = (Raise e, w1) ->
  retried e && (attempt <? max_retries - 1)%Z = false ->
  attempts_loop claude_reply llama_reply (attempt :: rest) mc prompt w
  = (Raise e, w1).
Proof.
  intros H R. rewrite (attempts_loop_failure _ _ _ _ _ _ _ H), R.
  reflexivity.
Qed.

Lemma attempts_loop_success attempt rest mc prompt w text w1 :
  call mc prompt w = (Return text, w1) ->
  attempts_loop claude_reply llama_reply (attempt :: rest) mc prompt w
  = (Return text, w1).
Proof. unfold call. intros H. simpl. rewrite H. reflexivity. Qed.




End Retries.

Section PipelineRuns.
Import Models BedrockService.

(** A run in which the runtime throttles every request of every backend. *)
Lemma fallback_when_every_backend_fails_witness :
  exists w',
    review_terraform "2026-01-01T00:00:00" Samples.no_json
      Samples.always_throttled Samples.always_throttled
      Samples.prompt_pr Samples.prompt_fa Samples.prompt_fe
      "resource {}" None "pr_review" init_world
    = (Return (_create_fallback_result "2026-01-01T00:00:00"), w').
Proof.
  apply (fallback_when_every_backend_fails
           "2026-01-01T00:00:00" Samples.no_json
           Samples.always_throttled Samples.always_throttled
           Samples.prompt_pr Samples.prompt_fa Samples.prompt_fe
           "resource {}" None "pr_review"
           "Analyze the following Terraform code" init_world).
  - reflexivity.
  - vm_compute. exact I.
Defined.



End PipelineRuns.

(** ** Response validator *)

Section Validation.
Import BedrockService.

(** The test [key in data] on a JSON object never raises. *)
Lemma py_in_dict key d :
  Py.py_in key (PyDict d) = Return (Spec.present (Py.lookup key d)).
Proof. reflexivity. Qed.

(** The loop over the required keys passes exactly when all are there. *)
Lemma check_required_keys_dict keys d :
  Py.returns (check_required_keys keys (PyDict d))
  = forallb (fun key => Spec.present (Py.lookup key d)) keys.
Proof.
  induction keys as [|key rest IH]; simpl; [reflexivity|].
  destruct (Py.lookup key d); simpl; [exact IH | reflexivity].
Qed.

(** C5, as stated, fails in both directions: a payload whose
    [cost_optimizations] is a string breaks a listed rule and passes, and a
    payload that breaks none of the listed rules but lacks
    [security_analysis.total_findings] is refused. *)
Lemma validation_differs_from_listed_rules :
  (Spec.violates_listed_rules (Spec.fields Samples.payload_bad_optimizations)
   = true
   /\ _validate_pr_review_schema Samples.payload_bad_optimizations
      = Return tt)
  /\ (Spec.violates_listed_rules (Spec.fields Samples.payload_no_total)
      = false
      /\ _validate_pr_review_schema Samples.payload_no_total
         = Raise Py.AssertionError).
Proof. repeat apply conj; vm_compute; reflexivity. Qed.

(** The checks on [security_analysis], followed by anything. *)
Lemma security_checks sec (rest : result unit) :
  Py.returns
    (b <- Py.py_in "total_findings" sec ;;
     Py.assert b ;;;
     b <- Py.py_in "findings" sec ;;
     b <- (if b then v <- Py.subscript sec "findings" ;;
                     Return (Py.isinstance_list v)
           else Return false) ;;
     Py.assert b ;;;
     rest)
  = Spec.present (Spec.field sec "total_findings")
    && Spec.is_list (Spec.field sec "findings")
    && Py.returns rest.
Proof.
  destruct sec as [| b | n | f | s | l | d]; try reflexivity;
    simpl; unfold Py.getitem.
  - destruct (Py.contains "total_findings" s); [|reflexivity]. simpl.
    destruct (Py.contains "findings" s); reflexivity.
  - destruct (existsb _ l); [|reflexivity]. simpl.
    destruct (existsb _ l); reflexivity.
  - destruct (Py.lookup "total_findings" d); [|reflexivity]. simpl.
    destruct (Py.lookup "findings" d) as [[]|]; reflexivity.
Qed.

(** The checks on [cost_analysis]. *)
Lemma cost_checks cost (rest : result unit) :
  Py.returns
    (b <- Py.py_in "estimated_monthly_cost" cost ;;
     Py.assert b ;;;
     v <- Py.subscript cost "estimated_monthly_cost" ;;
     Py.assert (Py.isinstance_int_float v) ;;;
     rest)
  = Spec.is_number (Spec.field cost "estimated_monthly_cost")
    && Py.returns rest.
Proof.
  destruct cost as [| b | n | f | s | l | d]; try reflexivity;
    simpl; unfold Py.getitem.
  - destruct (Py.contains _ s); reflexivity.
  - destruct (existsb _ l); reflexivity.
  - destruct (Py.lookup "estimated_monthly_cost" d) as [[]|]; reflexivity.
Qed.

(** The test [0.0 <= v <= 1.0] under an [assert]. *)
Lemma unit_interval_check v (rest : result unit) :
  Py.returns (b <- Py.in_unit_interval v ;; Py.assert b ;;; rest)
  = Spec.unit_number (Some v) && Py.returns rest.
Proof.
  destruct v as [| b | n | f | s | l | d]; try reflexivity; simpl.
  - destruct ((0 <=? n)%Z && (n <=? 1)%Z); reflexivity.
  - destruct (PrimFloat.leb 0 f && PrimFloat.leb f 1); reflexivity.
Qed.

(** The checks on [reliability_analysis]. *)
Lemma reliability_checks rel (rest : result unit) :
  Py.returns
    (b <- Py.py_in "reliability_score" rel ;;
     Py.assert b ;;;
     v <- Py.subscript rel "reliability_score" ;;
     b <- Py.in_unit_interval v ;;
     Py.assert b ;;;
     rest)
  = Spec.unit_number (Spec.field rel "reliability_score")
    && Py.returns rest.
Proof.
  destruct rel as [| b | n | f | s | l | d]; try reflexivity;
    simpl; unfold Py.getitem.
  - destruct (Py.contains _ s); reflexivity.
  - destruct (existsb _ l); reflexivity.
  - destruct (Py.lookup "reliability_score" d) as [v|]; [|reflexivity].
    simpl. apply unit_interval_check.
Qed.

(** C5, amended: a JSON object passes [_validate_pr_review_schema] exactly
    when it has the six required keys, its security analysis has
    [total_findings] and a list under [findings], its cost analysis has a
    number under [estimated_monthly_cost], and [reliability_score] and
    [overall_risk_score] are numbers of the unit interval; in every other
    case the validator raises. *)
Theorem validate_pr_review_schema_accepts (d : list (string * pyval)) :
  Py.returns (_validate_pr_review_schema (PyDict d)) = Spec.accepted d.
Proof.
  unfold _validate_pr_review_schema, Spec.accepted, Spec.has_required_keys.
  cbv zeta.
  pose proof (check_required_keys_dict Spec.pr_review_keys d) as K.
  change Spec.pr_review_keys
    with ["security_analysis"; "cost_analysis"; "reliability_analysis";
          "overall_risk_score"; "fix_suggestions"; "review_metadata"] in K.
  unfold Spec.pr_review_keys.
  destruct (check_required_keys _ (PyDict d)) as [[]|e];
    cbn [Py.returns] in K; rewrite <- K; [|reflexivity].
  symmetry in K. cbn [forallb] in K.
  repeat (apply andb_prop in K; destruct K as [?K K]).
  cbn [Py.bind andb Py.subscript]. unfold Py.getitem, Py.get.
  destruct (Py.lookup "security_analysis" d) as [sec|]; [|discriminate].
  destruct (Py.lookup "cost_analysis" d) as [cost|]; [|discriminate].
  destruct (Py.lookup "reliability_analysis" d) as [rel|]; [|discriminate].
  destruct (Py.lookup "overall_risk_score" d) as [risk|]; [|discriminate].
  cbn [Py.bind].
  rewrite security_checks. cbn [Py.bind].
  rewrite cost_checks. cbn [Py.bind].
  rewrite reliability_checks. cbn [Py.bind].
  replace (b <- Py.in_unit_interval risk ;; Py.assert b)
    with (b <- Py.in_unit_interval risk ;; Py.assert b ;;; Return tt).
  - rewrite unit_interval_check. cbn [Py.returns].
    rewrite andb_true_r, !andb_assoc. reflexivity.
  - destruct (Py.in_unit_interval risk) as [[]|]; reflexivity.
Qed.

End Validation.

(** ** Versioned store *)

Section Store.
Import Models DynamoDBClient.

Lemma sort_by_SK_nil : sort_by_SK [] = [].
Proof. reflexivity. Qed.

(** With no row for the id, the latest-version lookup finds nothing. *)
Lemma get_review_none (t : Table) (review_id : string) :
  versions_of t review_id = [] -> get_review t review_id None = None.
Proof.
  unfold versions_of, get_review, query. intros H.
  apply map_eq_nil in H. cbn [truthy_int]. cbv iota. rewrite H. reflexivity.
Qed.

(** An update of a review that has no row raises and leaves the table as
    it was. *)
Lemma update_review_not_found (t : Table) (review_id : string)
    (update : update_data) :
  versions_of t review_id = [] ->
  update_review t review_id update
  = (t, Raise (Py.ValueError ("Review " ++ review_id ++ " not found"))).
Proof.
  intros H. unfold update_review. rewrite (get_review_none t review_id H).
  reflexivity.
Qed.

(** *** The order of sort keys *)

Lemma string_compare_le_trans : forall s1 s2 s3,
  String.compare s1 s2 <> Gt -> String.compare s2 s3 <> Gt ->
  String.compare s1 s3 <> Gt.
Proof.
  induction s1 as [|a s1 IH]; intros [|b s2] [|c s3]; simpl;
    try congruence.
  unfold Ascii.compare.
  destruct (N.compare_spec (N_of_ascii a) (N_of_ascii b)) as [E1|E1|E1];
    destruct (N.compare_spec (N_of_ascii b) (N_of_ascii c)) as [E2|E2|E2];
    try congruence; intros H1 H2.
  - rewrite E1, E2, N.compare_refl. eauto.
  - rewrite E1. apply N.compare_lt_iff in E2. rewrite E2. discriminate.
  - rewrite <- E2. apply N.compare_lt_iff in E1. rewrite E1. discriminate.
  - assert (E : (N_of_ascii a < N_of_ascii c)%N) by lia.
    apply N.compare_lt_iff in E. rewrite E. discriminate.
Qed.

Lemma string_leb_trans s1 s2 s3 :
  String.leb s1 s2 = true -> String.leb s2 s3 = true ->
  String.leb s1 s3 = true.
Proof.
  unfold String.leb. intros H1 H2.
  pose proof (string_compare_le_trans s1 s2 s3) as T.
  destruct (String.compare s1 s2); try discriminate;
    destruct (String.compare s2 s3); try discriminate;
    destruct (String.compare s1 s3); try reflexivity;
    exfalso; apply T; congruence.
Qed.

Lemma string_leb_refl s : String.leb s s = true.
Proof.
  destruct (String.leb_total s s); assumption.
Qed.

Lemma string_leb_false s1 s2 :
  String.leb s1 s2 = false -> String.leb s2 s1 = true.
Proof.
  intros H. destruct (String.leb_total s1 s2); congruence.
Qed.

(** *** Sorting by sort key *)

Lemma insert_by_SK_In x y l :
  In y (insert_by_SK x l) <-> y = x \/ In y l.
Proof.
  induction l as [|z l IH]; simpl.
  - intuition.
  - destruct (String.leb (SK x) (SK z)); simpl; rewrite ?IH; intuition.
Qed.

Lemma sort_by_SK_In y l : In y (sort_by_SK l) <-> In y l.
Proof.
  induction l as [|x l IH]; simpl; [tauto|].
  rewrite insert_by_SK_In, IH. intuition.
Qed.

Lemma insert_by_SK_ascending x l :
  Spec.ascending l -> Spec.ascending (insert_by_SK x l).
Proof.
  induction l as [|z l IH]; simpl; intros H.
  - split; [intros y []|exact I].
  - destruct H as [Hz Hl].
    destruct (String.leb (SK x) (SK z)) eqn:E; simpl.
    + split; [|split; assumption].
      intros y [<-|Hy]; [exact E|].
      apply (string_leb_trans _ (SK z)); auto.
    + split; [|apply IH, Hl].
      intros y Hy. apply insert_by_SK_In in Hy.
      destruct Hy as [->|Hy]; [apply string_leb_false, E | auto].
Qed.

Lemma sort_by_SK_ascending l : Spec.ascending (sort_by_SK l).
Proof.
  induction l as [|x l IH]; simpl; [exact I|].
  apply insert_by_SK_ascending, IH.
Qed.

Lemma ascending_rev_head l x rest :
  Spec.ascending l -> rev l = x :: rest ->
  forall y, In y l -> String.leb (SK y) (SK x) = true.
Proof.
  revert x rest.
  induction l as [|z l IH]; simpl; intros x rest A E y Hy;
    [contradiction|].
  destruct A as [Hz Hl].
  destruct (rev l) as [|x' rest'] eqn:R.
  - simpl in E. inversion E; subst.
    assert (l = []) by (rewrite <- (rev_involutive l), R; reflexivity).
    subst. destruct Hy as [<-|[]]. apply string_leb_refl.
  - simpl in E. inversion E; subst.
    assert (Hx : In x l).
    { apply in_rev. rewrite R. left. reflexivity. }
    destruct Hy as [<-|Hy]; [auto | eapply IH; eauto].
Qed.

(** What the latest-version lookup returns: a row of the review whose sort
    key is the greatest, as text, among the rows of the review. *)
Lemma get_review_latest_by_text (t : Table) (review_id : string)
    (item : Item) :
  get_review t review_id None = Some item ->
  In item t /\ PK item = "REVIEW#" ++ review_id
  /\ forall x, In x t -> PK x = "REVIEW#" ++ review_id ->
               String.leb (SK x) (SK item) = true.
Proof.
  unfold get_review, query. cbn [truthy_int]. cbv iota.
  set (rows := filter _ t).
  destruct (rev (sort_by_SK rows)) as [|top rest] eqn:R;
    simpl; intros H; inversion H; subst.
  assert (Hin : In item rows).
  { apply sort_by_SK_In, in_rev. rewrite R. left. reflexivity. }
  apply filter_In in Hin. destruct Hin as [Hin Hpk].
  apply String.eqb_eq in Hpk.
  repeat split; auto.
  intros x Hx Px.
  apply (ascending_rev_head (sort_by_SK rows) item rest
           (sort_by_SK_ascending rows) R).
  apply sort_by_SK_In, filter_In. split; [exact Hx|].
  apply String.eqb_eq, Px.
Qed.


Lemma put_item_get_other (t : Table) (item : Item) (pk sk : string) :
  has_key pk sk item = false ->
  get_item (put_item t item) pk sk = get_item t pk sk.
Proof.
  unfold get_item, put_item. intros H. simpl. rewrite H.
  induction t as [|x t IH]; simpl; [reflexivity|].
  destruct (has_key (PK item) (SK item) x) eqn:E; simpl.
  - rewrite IH. unfold has_key in *.
    apply andb_prop in E. destruct E as [E1 E2].
    apply String.eqb_eq in E1, E2. rewrite E1, E2.
    rewrite H. reflexivity.
  - rewrite IH. reflexivity.
Qed.

(** An update writes one item: the successor, by number, of the row the
    lookup returned, under the sort key of that number. *)
Lemma update_review_writes_successor (t : Table) (review_id : string)
    (update : update_data) (current : Item) :
  get_review t review_id None = Some current ->
  exists item,
    update_review t review_id update = (put_item t item, Return item)
    /\ version (attributes item) = (version (attributes current) + 1)%Z
    /\ PK item = "REVIEW#" ++ r_review_id (attributes current)
    /\ SK item
       = "VERSION#" ++ Py.str_of_int (version (attributes current) + 1).
Proof.
  intros H. unfold update_review. rewrite H. cbv zeta.
  unfold create_review. cbv zeta.
  eexists. repeat apply conj; reflexivity.
Qed.

(** Up to version 9 every update adds the next version and the lookup
    returns it. *)
Lemma single_digit_versions (k : nat) :
  (k <= 8)%nat ->
  versions_of (Samples.history k) "r-1" = map Z.of_nat (rev (seq 1 (S k)))
  /\ option_map (fun item => version (attributes item))
                (get_review (Samples.history k) "r-1" None)
     = Some (Z.of_nat (S k)).
Proof.
  intros H.
  do 9 (destruct k as [|k]; [split; vm_compute; reflexivity|]).
  lia.
Qed.

(** C2: with versions 1 to 10 stored, the lookup returns version 9.  The
    sort key is the text [VERSION#n], and as text [VERSION#9] comes after
    [VERSION#10]. *)
Theorem latest_lookup_returns_version_9_of_10 :
  versions_of (Samples.history 9) "r-1"
  = [10; 9; 8; 7; 6; 5; 4; 3; 2; 1]%Z
  /\ option_map (fun item => (SK item, version (attributes item)))
                (get_review (Samples.history 9) "r-1" None)
     = Some ("VERSION#9", 9%Z)
  /\ String.ltb "VERSION#10" "VERSION#9" = true.
Proof. split; [|split]; vm_compute; reflexivity. Qed.

(** C3: with versions 1 to 10 stored, an update reads version 9 as the
    current one, builds version 10 again and writes it over the stored
    version 10: the versions in the table stay 1 to 10, and the row under
    [VERSION#10] now carries the new status. *)
Theorem update_overwrites_version_10 :
  let t := Samples.history 9 in
  let run := update_review t "r-1" (Samples.set_status FAILED) in
  option_map (fun item => status (attributes item))
             (get_item t "REVIEW#r-1" "VERSION#10") = Some IN_PROGRESS
  /\ match snd run with
     | Return item =>
         SK item = "VERSION#10" /\ version (attributes item) = 10%Z
     | Raise _ => False
     end
  /\ versions_of (fst run) "r-1" = [10; 9; 8; 7; 6; 5; 4; 3; 2; 1]%Z
  /\ option_map (fun item => status (attributes item))
                (get_item (fst run) "REVIEW#r-1" "VERSION#10") = Some FAILED.
Proof.
  cbv zeta. split; [|split; [|split]]; vm_compute; auto.
Qed.

End Store.

(** ** Attribute encoding *)

Section Encoding.
Import Models DynamoDBClient.


(** [None] comes back as text. *)
Lemma none_is_stored_as_text :
  Spec.stored_and_read PyNone = PyStr "None".
Proof. reflexivity. Qed.

(** C9: a result whose finding has no cost impact does not survive the
    table.  The absent field comes back as the string "None", so the
    stored dict differs from the original and no longer validates as an
    [AIReviewResult]; before storing it did. *)
Theorem absent_fields_do_not_round_trip :
  let original := Pydantic.AIReviewResult_dict Samples.plain_result in
  Pydantic.AIReviewResult_of original = Return Samples.plain_result
  /\ Spec.stored_and_read original <> original
  /\ Spec.field (Spec.stored_and_read
                   (Pydantic.Finding_dict Samples.plain_finding))
                "estimated_cost_impact" = Some (PyStr "None")
  /\ Pydantic.AIReviewResult_of (Spec.stored_and_read original)
     = Raise Py.ValidationError.
Proof.
  cbv zeta. split; [vm_compute; reflexivity|].
  split; [|split; vm_compute; reflexivity].
  intros H.
  assert (N : Spec.none_free
                (Spec.stored_and_read
                   (Pydantic.AIReviewResult_dict Samples.plain_result))
              = true) by (vm_compute; reflexivity).
  rewrite H in N. vm_compute in N. discriminate.
Qed.

End Encoding.

(** ** Scoring engine: ranges *)

Section FloatOrder.
Local Open Scope float_scope.

Lemma ltb_leb x y : (x <? y) = true -> (x <=? y) = true.
Proof.
  rewrite ltb_spec, leb_spec. unfold SFltb, SFleb.
  destruct (SFcompare _ _) as [[]|]; congruence.
Qed.

(** [min(1.0, x)] never exceeds one, also when [x] is a NaN. *)
Lemma min_one_le x : (Py.min 1 x <=? 1) = true.
Proof.
  unfold Py.min. destruct (x <? 1) eqn:E.
  - apply ltb_leb, E.
  - reflexivity.
Qed.

(** [min(1.0, max(0.0, x))] lies in the unit interval for every float. *)
Lemma clamp_in_unit x : in_unit (Py.min 1 (Py.max 0 x)) = true.
Proof.
  unfold in_unit, Py.max. destruct (0 <? x) eqn:E0.
  - unfold Py.min. destruct (x <? 1) eqn:E1.
    + rewrite (ltb_leb _ _ E0), (ltb_leb _ _ E1). reflexivity.
    + reflexivity.
  - reflexivity.
Qed.

Lemma fnonneg_leb y : fnonneg y -> (0 <=? y) = true.
Proof.
  intros H. destruct (fnonneg_cases y H) as [E | ->].
  - apply ltb_leb, E.
  - reflexivity.
Qed.

Lemma fnonneg_min_one_in_unit y : fnonneg y -> in_unit (Py.min 1 y) = true.
Proof.
  intros H. unfold in_unit. rewrite min_one_le, andb_true_r.
  apply fnonneg_leb, min_nonneg; [|exact H].
  apply fposfin_nonneg, fposfin_literals.
Qed.

(** A float that is at least zero is non-negative in sign, or the negative
    zero. *)
Lemma leb_zero_cases y :
  (0 <=? y) = true -> fnonneg y \/ y = (-0)%float.
Proof.
  rewrite leb_spec. unfold fnonneg. intros H.
  destruct (Prim2SF y) as [s|s| |s m e] eqn:E.
  - destruct s; [right | left; reflexivity].
    rewrite <- (SF2Prim_Prim2SF y), E. reflexivity.
  - destruct s; [discriminate H | left; reflexivity].
  - discriminate H.
  - destruct s; [discriminate H | left; reflexivity].
Qed.

Lemma neg_zero_add_nonneg y : fnonneg y -> fnonneg (-0 + y).
Proof.
  unfold fnonneg. rewrite add_spec.
  destruct (Prim2SF y) as [s|s| |s m e]; simpl; try contradiction;
    intros ->; reflexivity.
Qed.

End FloatOrder.

Section Ranges.
Import Models RiskScoringAlgorithm ConfidenceScoringAlgorithm.
Local Open Scope float_scope.

Lemma bind_returns {A B} (c : result A) (k : A -> result B) b :
  Py.bind c k = Return b -> exists a, c = Return a /\ k a = Return b.
Proof. destruct c; simpl; intros H; [eauto | discriminate]. Qed.

Lemma int_mul_float_nonneg n c x :
  (0 <= n)%Z -> fposfin c -> Py.int_mul_float n c = Return x -> fnonneg x.
Proof.
  intros Hn Hc H. unfold Py.int_mul_float in H.
  apply bind_returns in H. destruct H as (f & Hf & H).
  inversion H; subst. apply fnonneg_mul; [|exact Hc].
  eapply float_of_int_nonneg; eauto.
Qed.

(** X1: whatever the three aggregates hold, an overall risk that is
    returned lies in the unit interval. *)
Theorem overall_risk_in_unit_interval (security : SecurityAnalysis)
    (cost : CostAnalysis) (reliability : ReliabilityAnalysis) (x : float) :
  calculate_overall_risk security cost reliability = Return x ->
  in_unit x = true.
Proof.
  unfold calculate_overall_risk. intros H.
  apply bind_returns in H. destruct H as (s & _ & H).
  apply bind_returns in H. destruct H as (c & _ & H).
  apply bind_returns in H. destruct H as (r & _ & H).
  simpl in H. inversion H. apply clamp_in_unit.
Qed.

Lemma overall_risk_in_unit_interval_witness :
  in_unit 0.4375 = true.
Proof.
  apply (overall_risk_in_unit_interval
           (Spec.scenario_A [])
           (Spec.scenario_B Samples.plain_finding Samples.plain_finding
                            Samples.plain_finding)
           (Spec.scenario_C Samples.plain_finding)).
  vm_compute. reflexivity.
Defined.

(** X2: for non-negative severity counts the security component lies in
    the unit interval. *)
Theorem security_score_in_unit_interval (security : SecurityAnalysis)
    (x : float) :
  (0 <= high_severity security)%Z ->
  (0 <= medium_severity security)%Z ->
  (0 <= low_severity security)%Z ->
  _calculate_security_score security = Return x ->
  in_unit x = true.
Proof.
  intros Hh Hm Hl. unfold _calculate_security_score.
  destruct (total_findings security =? 0)%Z.
  { intros H. inversion H. reflexivity. }
  simpl. intros H.
  destruct fposfin_literals as (P1 & P05 & P02 & P10 & P15).
  apply bind_returns in H. destruct H as (th & Eh & H).
  apply bind_returns in H. destruct H as (tm & Em & H).
  apply bind_returns in H. destruct H as (tl & El & H).
  assert (N : fnonneg ((th + tm + tl) / 10)).
  { apply fnonneg_div; [|exact P10].
    apply fnonneg_add; [apply fnonneg_add|];
      eauto using int_mul_float_nonneg. }
  destruct (0 <? high_severity security)%Z; inversion H.
  - apply fnonneg_min_one_in_unit, fnonneg_mul; [|exact P15].
    apply min_nonneg; [apply fposfin_nonneg, P1 | exact N].
  - apply fnonneg_min_one_in_unit, N.
Qed.

Lemma security_score_in_unit_interval_witness : in_unit 0.375 = true.
Proof.
  apply (security_score_in_unit_interval (Spec.scenario_A []));
    [simpl; lia | simpl; lia | simpl; lia | vm_compute; reflexivity].
Defined.

(** X3: for a monthly cost that is at least zero the cost component lies
    in the unit interval, however many optimizations are listed. *)
Theorem cost_score_in_unit_interval (cost : CostAnalysis) (x : float) :
  (0 <=? estimated_monthly_cost cost) = true ->
  _calculate_cost_score cost = Return x ->
  in_unit x = true.
Proof.
  intros Hc. unfold _calculate_cost_score. intros H.
  apply bind_returns in H. destruct H as (t & Et & H).
  inversion H.
  assert (Nt : fnonneg (Py.min 0.5 t)).
  { apply min_nonneg; [vm_compute; reflexivity|].
    eapply int_mul_float_nonneg; [| |exact Et]; [lia | vm_compute; exact I]. }
  apply fnonneg_min_one_in_unit.
  destruct (leb_zero_cases _ Hc) as [N | ->].
  - apply fnonneg_add; [|exact Nt].
    apply min_nonneg; [vm_compute; reflexivity|].
    apply fnonneg_div; [exact N | vm_compute; exact I].
  - change (Py.min 1 (-0 / 10000)) with (-0)%float.
    apply neg_zero_add_nonneg, Nt.
Qed.

Lemma cost_score_in_unit_interval_witness : in_unit 0.8 = true.
Proof.
  apply (cost_score_in_unit_interval
           (Spec.scenario_B Samples.plain_finding Samples.plain_finding
                            Samples.plain_finding));
    vm_compute; reflexivity.
Defined.

End Ranges.

(** ** Confidence scoring and per-category risk *)

Section Confidence.
Import Models RiskScoringAlgorithm ConfidenceScoringAlgorithm.
Import RiskScoringRest ConfidenceScoringRest.
Local Open Scope float_scope.

(** The base confidence is one of the four table entries, whatever the
    model is called. *)
Lemma base_confidence_cases (key : string) :
  let b := Py.get MODEL_CONFIDENCE_BASE key 0.80 in
  b = 0.95 \/ b = 0.98 \/ b = 0.85 \/ b = 0.80.
Proof.
  unfold Py.get, MODEL_CONFIDENCE_BASE. cbn [Py.lookup].
  repeat match goal with
         | |- context [String.eqb ?k key] =>
             destruct (String.eqb k key); [cbv zeta; auto|]
         end.
  cbv zeta. auto.
Qed.

Lemma finding_confidence_eq finding model_used a b :
  calculate_finding_confidence finding model_used a b
  = Return
      (Py.min 1.0
         (Py.max 0.0
            (Py.get MODEL_CONFIDENCE_BASE (Py.lower model_used) 0.80
             + (if b then (if a then 0.0 + 0.03 else 0.0) + 0.02
                else (if a then 0.0 + 0.03 else 0.0))
             + Py.get severity_adjustment_table
                      (RiskLevel_value (severity finding)) 0.0))).
Proof. reflexivity. Qed.

(** X4: the confidence of a finding is always computed, and lies in the
    unit interval, for every finding, model name and pair of flags. *)
Theorem finding_confidence_in_unit_interval (finding : Finding)
    (model_used : string) (has_line_number has_file_path : bool) :
  exists x,
    calculate_finding_confidence finding model_used
                                 has_line_number has_file_path = Return x
    /\ in_unit x = true.
Proof.
  rewrite finding_confidence_eq. eexists. split; [reflexivity|].
  apply clamp_in_unit.
Qed.

(** X5: knowing the line number or the file path of a finding never
    lowers its confidence. *)
Theorem specificity_never_lowers_confidence (finding : Finding)
    (model_used : string) (a b a' b' : bool) :
  exists x y,
    calculate_finding_confidence finding model_used a b = Return x
    /\ calculate_finding_confidence finding model_used
                                    (a || a') (b || b') = Return y
    /\ (x <=? y) = true.
Proof.
  rewrite !finding_confidence_eq. do 2 eexists.
  split; [reflexivity|]. split; [reflexivity|].
  pose proof (base_confidence_cases (Py.lower model_used)) as B.
  cbv zeta in B.
  destruct B as [-> | [-> | [-> | ->]]];
    destruct (severity finding), a, b, a', b'; vm_compute; reflexivity.
Qed.

(** X6: the adjusted confidence lies in the unit interval for every pair
    of floats, NaN and infinities included. *)
Theorem adjusted_confidence_in_unit_interval
    (base_confidence consistency_score : float) :
  in_unit (adjust_confidence_by_consistency base_confidence
                                            consistency_score) = true.
Proof. unfold adjust_confidence_by_consistency. apply clamp_in_unit. Qed.

Lemma mapM_finding_confidence model_used (findings : list Finding) :
  exists cs,
    Pydantic.mapM
      (fun f => calculate_finding_confidence f model_used
                  (has_value (line_number f)) (has_value (file_path f)))
      findings = Return cs.
Proof.
  induction findings as [|f l [cs IH]]; cbn [Pydantic.mapM].
  - eauto.
  - rewrite finding_confidence_eq. cbn [Py.bind]. rewrite IH.
    cbn [Py.bind]. eauto.
Qed.

(** A float above one is not a zero. *)
Lemma above_one_not_zero x : (1 <? x) = true -> (x =? 0) = false.
Proof.
  rewrite ltb_spec, eqb_spec.
  destruct (Prim2SF x) as [s|s| |s m e]; try destruct s; intros H;
    try reflexivity; vm_compute in H; discriminate H.
Qed.

(** X7: the overall confidence of a review is computed for every list of
    findings: the divisor [max(1, total_weight)] is never zero. *)
Theorem overall_confidence_always_returns (findings : list Finding)
    (model_used : string) :
  exists x, calculate_overall_confidence findings model_used = Return x.
Proof.
  unfold calculate_overall_confidence.
  destruct findings as [|f l]; [eauto|].
  destruct (mapM_finding_confidence model_used (f :: l)) as [cs ->].
  cbn [Py.bind].
  destruct (1 <? _) eqn:E.
  - unfold truediv. rewrite (above_one_not_zero _ E). eauto.
  - change (Py.float_of_int 1) with (Return 1 : result float).
    cbn [Py.bind]. unfold truediv.
    change (1 =? 0) with false. eauto.
Qed.

(** X8: for a single finding the overall confidence is the confidence of
    the finding multiplied by its severity weight: the weights are not
    normalised away while their sum stays below one. *)
Theorem overall_confidence_of_one_finding (finding : Finding)
    (model_used : string) :
  exists c,
    calculate_finding_confidence finding model_used
      (has_value (line_number finding))
      (has_value (file_path finding)) = Return c
    /\ calculate_overall_confidence [finding] model_used
       = Return (c * RiskScoringRest.severity_weight finding).
Proof.
  destruct finding as [fid cat sev ttl dsc ln fp rec eci cs].
  unfold calculate_overall_confidence. cbn [Pydantic.mapM].
  rewrite finding_confidence_eq. cbn [Py.bind].
  eexists. split; [reflexivity|].
  unfold RiskScoringRest.severity_weight.
  cbn [severity line_number file_path].
  pose proof (base_confidence_cases (Py.lower model_used)) as B.
  cbv zeta in B.
  destruct B as [-> | [-> | [-> | ->]]];
    destruct sev, ln, fp; vm_compute; reflexivity.
Qed.

Lemma filter_none {A} (p : A -> bool) l :
  forallb (fun x => negb (p x)) l = true -> filter p l = [].
Proof.
  induction l as [|x l IH]; simpl; [reflexivity|].
  destruct (p x); simpl; [discriminate | exact IH].
Qed.

(** X9: a category without findings has risk [0.0]. *)
Theorem category_risk_without_findings (findings : list Finding)
    (category : string) :
  forallb (fun f => negb (String.eqb (Models.category f) category))
          findings = true ->
  calculate_category_risk findings category = Return 0.0.
Proof.
  intros H. unfold calculate_category_risk.
  rewrite (filter_none _ _ H). destruct findings; reflexivity.
Qed.

Lemma category_risk_without_findings_witness :
  calculate_category_risk [Samples.plain_finding] "cost" = Return 0.0.
Proof.
  apply (category_risk_without_findings [Samples.plain_finding] "cost").
  reflexivity.
Defined.

(** X10: a category risk that is returned never exceeds one. *)
Theorem category_risk_at_most_one (findings : list Finding)
    (category : string) (x : float) :
  calculate_category_risk findings category = Return x ->
  (x <=? 1) = true.
Proof.
  unfold calculate_category_risk.
  destruct findings as [|f l]; [intros H; inversion H; reflexivity|].
  destruct (filter _ _) as [|g l'];
    [intros H; inversion H; reflexivity|].
  intros H.
  apply bind_returns in H. destruct H as (d & _ & H).
  apply bind_returns in H. destruct H as (q & _ & H).
  inversion H. apply min_one_le.
Qed.

Lemma category_risk_at_most_one_witness : (0.95 <=? 1) = true.
Proof.
  apply (category_risk_at_most_one [Samples.plain_finding] "security").
  vm_compute. reflexivity.
Defined.

End Confidence.

(** ** Attribute encoding and model validation: what does round-trip *)

Section EncodingRoundTrips.
Import Models Pydantic DynamoDBClient Complete.

Lemma as_unit_float_valid f :
  in_unit f = true -> as_unit_float (PyFloat f) = Return f.
Proof.
  unfold as_unit_float, in_unit. simpl. intros ->. reflexivity.
Qed.

Lemma as_RiskLevel_value s :
  as_RiskLevel (PyStr (RiskLevel_value s)) = Return s.
Proof. destruct s; reflexivity. Qed.

Lemma Finding_of_dict (f : Finding) :
  valid_finding f = true -> Finding_of (Finding_dict f) = Return f.
Proof.
  destruct f as [a b c d e g h i j k]. unfold valid_finding. simpl.
  intros V. unfold Finding_of, Finding_dict, required, optional.
  cbn [Py.lookup String.eqb Ascii.eqb Bool.eqb finding_id category severity
       title description line_number file_path recommendation
       estimated_cost_impact confidence_score as_str Py.bind].
  rewrite as_RiskLevel_value, (as_unit_float_valid _ V).
  destruct g, h, j; reflexivity.
Qed.

Lemma FixSuggestion_of_dict (f : FixSuggestion) :
  valid_fix f = true -> FixSuggestion_of (FixSuggestion_dict f) = Return f.
Proof.
  destruct f as [a b c d e g]. unfold valid_fix. simpl.
  intros V. unfold FixSuggestion_of, FixSuggestion_dict, required, optional.
  cbn [Py.lookup String.eqb Ascii.eqb Bool.eqb fix_id fix_finding_id
       original_code suggested_code explanation effectiveness_score
       as_str Py.bind].
  destruct g as [x|]; [|reflexivity].
  cbn [opt]. rewrite (as_unit_float_valid _ V). reflexivity.
Qed.

Lemma mapM_round_trip {A} (to : A -> pyval) (from : pyval -> result A)
    (ok : A -> bool) :
  (forall a, ok a = true -> from (to a) = Return a) ->
  forall l, forallb ok l = true -> mapM from (map to l) = Return l.
Proof.
  intros H. induction l as [|a l IH]; simpl; [reflexivity|].
  intros V. apply andb_prop in V. destruct V as [Va Vl].
  rewrite (H a Va). simpl. rewrite (IH Vl). reflexivity.
Qed.

Lemma nested_Finding_of_dict (f : Finding) :
  valid_finding f = true -> nested Finding_of (Finding_dict f) = Return f.
Proof.
  intros V. unfold nested.
  change (Finding_dict f) with (PyDict (Spec.fields (Finding_dict f))).
  change (PyDict (Spec.fields (Finding_dict f))) with (Finding_dict f).
  rewrite (Finding_of_dict f V). reflexivity.
Qed.

Lemma nested_FixSuggestion_of_dict (f : FixSuggestion) :
  valid_fix f = true ->
  nested FixSuggestion_of (FixSuggestion_dict f) = Return f.
Proof.
  intros V. unfold nested.
  change (FixSuggestion_dict f)
    with (PyDict (Spec.fields (FixSuggestion_dict f))).
  change (PyDict (Spec.fields (FixSuggestion_dict f)))
    with (FixSuggestion_dict f).
  rewrite (FixSuggestion_of_dict f V). reflexivity.
Qed.

Lemma findings_round_trip (l : list Finding) :
  forallb valid_finding l = true ->
  mapM (nested Finding_of) (map Finding_dict l) = Return l.
Proof. apply mapM_round_trip, nested_Finding_of_dict. Qed.

Lemma strings_round_trip (l : list string) :
  mapM as_str (map PyStr l) = Return l.
Proof.
  apply (mapM_round_trip PyStr as_str (fun _ => true)); [reflexivity|].
  induction l; simpl; auto.
Qed.

Lemma AIReviewResult_of_dict (r : AIReviewResult) :
  valid_result r = true ->
  AIReviewResult_of (AIReviewResult_dict r) = Return r.
Proof.
  destruct r as [rid [s1 s2 s3 s4 s5] [c1 c2 c3 c4] [r1 r2 r3] o fx md].
  unfold valid_result. simpl. intros V.
  repeat (apply andb_prop in V; destruct V as [V ?]).
  unfold AIReviewResult_of, AIReviewResult_dict, required.
  cbn [Py.lookup String.eqb Ascii.eqb Bool.eqb review_id security_analysis
       cost_analysis reliability_analysis overall_risk_score fix_suggestions
       review_metadata as_str as_dict as_list Py.bind].
  assert (S : nested SecurityAnalysis_of
                (SecurityAnalysis_dict
                   {| total_findings := s1; high_severity := s2;
                      medium_severity := s3; low_severity := s4;
                      findings := s5 |})
              = Return {| total_findings := s1; high_severity := s2;
                          medium_severity := s3; low_severity := s4;
                          findings := s5 |}).
  { unfold nested, SecurityAnalysis_dict, SecurityAnalysis_of, required.
    cbn [Py.lookup String.eqb Ascii.eqb Bool.eqb total_findings
         high_severity medium_severity low_severity findings as_int as_list
         Py.bind].
    rewrite findings_round_trip by assumption. reflexivity. }
  assert (C : nested CostAnalysis_of
                (CostAnalysis_dict
                   {| estimated_monthly_cost := c1;
                      estimated_annual_cost := c2;
                      cost_optimizations := c3; resource_count := c4 |})
              = Return {| estimated_monthly_cost := c1;
                          estimated_annual_cost := c2;
                          cost_optimizations := c3;
                          resource_count := c4 |}).
  { unfold nested, CostAnalysis_dict, CostAnalysis_of, required.
    cbn [Py.lookup String.eqb Ascii.eqb Bool.eqb estimated_monthly_cost
         estimated_annual_cost cost_optimizations resource_count as_int
         as_float as_list Py.bind].
    rewrite findings_round_trip by assumption. reflexivity. }
  assert (R : nested ReliabilityAnalysis_of
                (ReliabilityAnalysis_dict
                   {| reliability_score := r1;
                      single_points_of_failure := r2;
                      recommendations := r3 |})
              = Return {| reliability_score := r1;
                          single_points_of_failure := r2;
                          recommendations := r3 |}).
  { unfold nested, ReliabilityAnalysis_dict, ReliabilityAnalysis_of,
      required.
    cbn [Py.lookup String.eqb Ascii.eqb Bool.eqb reliability_score
         single_points_of_failure recommendations as_list Py.bind].
    rewrite as_unit_float_valid by assumption. cbn [Py.bind].
    rewrite findings_round_trip by assumption. cbn [Py.bind].
    rewrite strings_round_trip. reflexivity. }
  rewrite S, C, R. cbn [Py.bind].
  rewrite as_unit_float_valid by assumption. cbn [Py.bind].
  rewrite (mapM_round_trip _ _ _ nested_FixSuggestion_of_dict)
    by assumption.
  reflexivity.
Qed.

(** X12: a result whose scores satisfy the constraints of [models.py] is
    rebuilt, field for field, from the dict [.dict()] gives for it; absent
    optional fields included. *)
Theorem result_is_rebuilt_from_its_dict (r : AIReviewResult) :
  valid_result r = true ->
  AIReviewResult_of (AIReviewResult_dict r) = Return r.
Proof. apply AIReviewResult_of_dict. Qed.

Lemma result_is_rebuilt_from_its_dict_witness :
  AIReviewResult_of (AIReviewResult_dict Samples.plain_result)
  = Return Samples.plain_result.
Proof.
  apply (result_is_rebuilt_from_its_dict Samples.plain_result).
  vm_compute. reflexivity.
Defined.










End EncodingRoundTrips.

(** ** Versioned store: writes, lookups and the table invariant *)

Section StoreWrites.
Import Models DynamoDBClient DynamoDBRest.

Lemma create_review_item_of (t : Table) (review : Review) :
  create_review t review = (put_item t (item_of review), item_of review).
Proof. reflexivity. Qed.

Lemma item_of_PK review : PK (item_of review) = "REVIEW#" ++ r_review_id review.
Proof. reflexivity. Qed.

Lemma item_of_SK review :
  SK (item_of review) = "VERSION#" ++ Py.str_of_int (version review).
Proof. reflexivity. Qed.

Lemma string_app_inv_head (p a b : string) : p ++ a = p ++ b -> a = b.
Proof.
  induction p as [|c p IH]; simpl; intros H; [exact H|].
  inversion H. auto.
Qed.







(** *** Reviews do not interfere *)

Lemma query_put_other (t : Table) (item : Item) (pk : string)
    (forward : bool) (n : nat) :
  PK item <> pk -> query (put_item t item) pk forward n = query t pk forward n.
Proof.
  intros H. unfold query, put_item.
  assert (E : String.eqb (PK item) pk = false).
  { destruct (String.eqb (PK item) pk) eqn:E; [|reflexivity].
    apply String.eqb_eq in E. contradiction. }
  assert (F : filter (fun x => String.eqb (PK x) pk)
                (item :: filter
                           (fun x => negb (has_key (PK item) (SK item) x)) t)
              = filter (fun x => String.eqb (PK x) pk) t).
  { simpl. rewrite E.
    induction t as [|x t IH]; simpl; [reflexivity|].
    destruct (has_key (PK item) (SK item) x) eqn:K; simpl.
    - unfold has_key in K. apply andb_prop in K. destruct K as [K _].
      apply String.eqb_eq in K. rewrite K, E. exact IH.
    - rewrite IH. reflexivity. }
  rewrite F. reflexivity.
Qed.

Lemma get_review_put_other (t : Table) (item : Item) (review_id : string)
    (version : option Z) :
  PK item <> "REVIEW#" ++ review_id ->
  get_review (put_item t item) review_id version
  = get_review t review_id version.
Proof.
  intros H. unfold get_review. destruct (truthy_int version).
  - apply put_item_get_other. unfold has_key.
    destruct (String.eqb (PK item) _) eqn:E; [|reflexivity].
    apply String.eqb_eq in E. contradiction.
  - rewrite query_put_other by exact H. reflexivity.
Qed.

Lemma review_prefix_neq (a b : string) :
  a <> b -> "REVIEW#" ++ a <> "REVIEW#" ++ b.
Proof. intros H E. apply H. exact (string_app_inv_head _ _ _ E). Qed.

(** X17: creating a review leaves every other review as it was: a lookup
    by another id, latest or by version, gives the same answer before and
    after. *)
Theorem other_reviews_are_untouched (t : Table) (review : Review)
    (other : string) (version : option Z) :
  other <> r_review_id review ->
  get_review (fst (create_review t review)) other version
  = get_review t other version.
Proof.
  intros Hne. rewrite create_review_item_of. cbn [fst].
  apply get_review_put_other. rewrite item_of_PK.
  apply review_prefix_neq. congruence.
Qed.

(** Review [r-2] is found as before after [r-3] is written next to it. *)
Lemma other_reviews_are_untouched_witness :
  get_review
    (fst (create_review MoreSamples.two_reviews
            (MoreSamples.third_review PENDING "resource {}")))
    "r-2" None
  = Some (item_of MoreSamples.second_review).
Proof.
  rewrite (other_reviews_are_untouched MoreSamples.two_reviews
             (MoreSamples.third_review PENDING "resource {}") "r-2" None).
  - vm_compute. reflexivity.
  - discriminate.
Defined.

End StoreWrites.

(** ** Versioned store: latest versions and the queries *)

Section LatestVersion.
Import Models DynamoDBClient DynamoDBRest.

Lemma string_leb_app (p a b : string) :
  String.leb (p ++ a) (p ++ b) = String.leb a b.
Proof.
  unfold String.leb.
  induction p as [|c p IH]; simpl; [reflexivity|].
  assert (E : Ascii.compare c c = Eq)
    by (unfold Ascii.compare; apply N.compare_refl).
  rewrite E. exact IH.
Qed.

Lemma digit_cases (a : Z) :
  (0 <= a <= 9)%Z ->
  In a [0; 1; 2; 3; 4; 5; 6; 7; 8; 9]%Z.
Proof. simpl. lia. Qed.

Lemma digit_order (a b : Z) :
  (0 <= a <= 9)%Z -> (0 <= b <= 9)%Z ->
  String.leb (Py.str_of_int a) (Py.str_of_int b) = true -> (a <= b)%Z.
Proof.
  intros Ha Hb. apply digit_cases in Ha, Hb. simpl in Ha, Hb.
  repeat (destruct Ha as [<- | Ha]; [
    repeat (destruct Hb as [<- | Hb];
            [vm_compute; intros H; try discriminate H; discriminate|]);
    contradiction |]).
  contradiction.
Qed.

(** X18: while the versions of a review stay below ten, the latest-version
    lookup returns the row with the highest version number. *)
Theorem latest_lookup_is_right_below_ten (t : Table) (review_id : string)
    (item : Item) :
  written_by_client t ->
  (forall x, In x t -> PK x = "REVIEW#" ++ review_id ->
             (0 <= version (attributes x) <= 9)%Z) ->
  get_review t review_id None = Some item ->
  In item t
  /\ forall x, In x t -> PK x = "REVIEW#" ++ review_id ->
               (version (attributes x) <= version (attributes item))%Z.
Proof.
  intros Hw Hv Hg.
  apply get_review_latest_by_text in Hg. destruct Hg as (Hin & Hpk & Hmax).
  split; [exact Hin|]. intros x Hx Px.
  unfold written_by_client in Hw. rewrite Forall_forall in Hw.
  specialize (Hmax x Hx Px).
  rewrite (Hw x Hx), (Hw item Hin), !item_of_SK, string_leb_app in Hmax.
  apply digit_order; auto.
Qed.

Lemma latest_lookup_is_right_below_ten_witness :
  In (item_of
        {| r_review_id := "r-1"; terraform_code := "resource {}";
           spacelift_run_id := Some "run-7"; spacelift_context := [];
           status := IN_PROGRESS;
           ai_review_result := Some Samples.degraded_result;
           created_at := "2026-01-01T00:00:00";
           updated_at := "2026-01-01T00:00:00";
           version := 3; previous_version_id := Some "r-1#VERSION#2" |})
     (Samples.history 2)
  /\ forall x, In x (Samples.history 2) -> PK x = "REVIEW#" ++ "r-1" ->
               (version (attributes x) <= 3)%Z.
Proof.
  apply (latest_lookup_is_right_below_ten (Samples.history 2) "r-1").
  - repeat constructor.
  - intros x Hx _. vm_compute in Hx.
    destruct Hx as [<- | [<- | [<- | []]]]; vm_compute;
      split; discriminate.
  - vm_compute. reflexivity.
Defined.

End LatestVersion.

Section Queries.
Import Models DynamoDBClient DynamoDBRest.

Variable cutoff_date : Z -> result string.

Lemma check_limit_returns (limit : Z) :
  (1 <= limit)%Z -> check_limit limit = Return (Z.to_nat limit).
Proof.
  intros H. unfold check_limit.
  destruct (limit <? 1)%Z eqn:E; [apply Z.ltb_lt in E; lia | reflexivity].
Qed.



End Queries.

Section QueryRuns.
Import Models DynamoDBClient DynamoDBRest.


End QueryRuns.

Section StackQuery.
Import Models DynamoDBClient DynamoDBRest.

Variable cutoff_date : Z -> result string.

Lemma item_of_not_a_stack (review : Review) (stack_id : string) :
  String.eqb (GSI1PK (item_of review)) ("STACK#" ++ stack_id) = false.
Proof.
  unfold item_of, create_review. cbn [snd GSI1PK].
  destruct (truthy_str (spacelift_run_id review)); reflexivity.
Qed.

Lemma filter_nothing {A} (p : A -> bool) (l : list A) :
  (forall x, In x l -> p x = false) -> filter p l = [].
Proof.
  induction l as [|x l IH]; simpl; intros H; [reflexivity|].
  rewrite (H x) by auto. apply IH. auto.
Qed.

Lemma insert_by_In key x y l :
  In y (insert_by key x l) -> y = x \/ In y l.
Proof.
  induction l as [|z l IH]; simpl.
  - intros [H | []]; auto.
  - destruct (String.leb (key x) (key z)); simpl.
    + intros [H | H]; auto.
    + intros [H | H]; auto. destruct (IH H); auto.
Qed.

Lemma sort_by_In key y l : In y (sort_by key l) -> In y l.
Proof.
  induction l as [|x l IH]; simpl; [auto|].
  intros H. apply insert_by_In in H. destruct H as [-> | H]; auto.
Qed.

Lemma firstn_In_list {A} (n : nat) (y : A) : forall l,
  In y (firstn n l) -> In y l.
Proof.
  induction n as [|n IH]; intros [|x l]; simpl; try contradiction.
  intros [H | H]; auto.
Qed.

(** X20: for a limit of at least one, and whatever the table holds, the
    query by stack returns none of the items [create_review] and
    [update_review] write: reviews are indexed by run or by review id,
    never by stack.  On a table that holds only such items the query
    finds nothing, for every stack and limit.  It raises only with a
    period whose cutoff date cannot be computed. *)
Theorem query_reviews_by_stack_finds_no_review (t : Table)
    (stack_id : string) (days : option Z) (limit : Z) :
  (1 <= limit)%Z ->
  match query_reviews_by_stack cutoff_date t stack_id days limit with
  | Return items =>
      (forall review, ~ In (item_of review) items)
      /\ (written_by_client t -> items = [])
  | Raise e =>
      truthy_int days = true /\ cutoff_date (or_else days 0%Z) = Raise e
  end.
Proof.
  intros Hl. unfold query_reviews_by_stack, query_index.
  rewrite (check_limit_returns limit Hl).
  assert (G : forall cutoff,
            let items :=
              firstn (Z.to_nat limit)
                (rev (sort_by GSI1SK
                        (filter
                           (fun x =>
                              String.eqb (GSI1PK x) ("STACK#" ++ stack_id)
                              && match cutoff with
                                 | Some c => String.leb c (GSI1SK x)
                                 | None => true
                                 end) t))) in
            (forall review, ~ In (item_of review) items)
            /\ (written_by_client t -> items = [])).
  { intros cutoff. cbv zeta. split.
    - intros review Hin.
      apply firstn_In_list, in_rev, sort_by_In, filter_In in Hin.
      destruct Hin as [_ Hin]. rewrite item_of_not_a_stack in Hin.
      discriminate Hin.
    - intros Hw. rewrite filter_nothing.
      + simpl. destruct (Z.to_nat limit); reflexivity.
      + intros x Hx. unfold written_by_client in Hw.
        rewrite Forall_forall in Hw. rewrite (Hw x Hx).
        rewrite item_of_not_a_stack. reflexivity. }
  destruct (truthy_int days).
  - destruct (cutoff_date (or_else days 0%Z)) as [cutoff|e];
      [exact (G (Some ("CREATED#" ++ cutoff))) | cbn [Py.bind]; auto].
  - exact (G None).
Qed.

End StackQuery.

Section StackQueryRuns.
Import Models DynamoDBClient DynamoDBRest.

(** The stack query for the last thirty days over a table that holds two
    reviews of the period. *)
Lemma query_reviews_by_stack_finds_no_review_witness :
  match query_reviews_by_stack MoreSamples.clock_2026
          MoreSamples.two_reviews "run-7" (Some 30%Z) 50 with
  | Return items =>
      (forall review, ~ In (item_of review) items)
      /\ (written_by_client MoreSamples.two_reviews -> items = [])
  | Raise e =>
      truthy_int (Some 30%Z) = true
      /\ MoreSamples.clock_2026 (or_else (Some 30%Z) 0%Z) = Raise e
  end.
Proof.
  apply (query_reviews_by_stack_finds_no_review MoreSamples.clock_2026
           MoreSamples.two_reviews "run-7" (Some 30%Z) 50).
  lia.
Defined.

End StackQueryRuns.

Section Deduplication.
Import Models DynamoDBClient DynamoDBRest.

Variable cutoff_date : Z -> result string.












End Deduplication.

(** ** Invocation pipeline: parsing, cost and the two analyses *)

Section Extraction.
Import BedrockService BedrockRest.

Variable json_loads : string -> option pyval.

Lemma from_first_open_skips (pre rest : string) :
  lacks "{" pre = true ->
  from_first_open (pre ++ String "{" rest) = Some (String "{" rest).
Proof.
  induction pre as [|c pre IH]; simpl; [reflexivity|].
  intros H. apply andb_prop in H. destruct H as [Hc Hp].
  destruct (Ascii.eqb c "{"); [discriminate Hc | exact (IH Hp)].
Qed.

Lemma upto_last_close_lacks (post : string) :
  lacks "}" post = true -> upto_last_close post = None.
Proof.
  induction post as [|c post IH]; simpl; [reflexivity|].
  intros H. apply andb_prop in H. destruct H as [Hc Hp].
  rewrite (IH Hp). destruct (Ascii.eqb c "}"); [discriminate Hc | reflexivity].
Qed.

Lemma upto_last_close_keeps (body post : string) :
  lacks "}" post = true ->
  upto_last_close (body ++ String "}" post) = Some (body ++ "}").
Proof.
  intros H. induction body as [|c body IH]; simpl.
  - rewrite (upto_last_close_lacks post H). reflexivity.
  - rewrite IH. reflexivity.
Qed.

Lemma search_braces_found (pre mid post : string) :
  lacks "{" pre = true -> lacks "}" post = true ->
  search_braces (pre ++ "{" ++ mid ++ "}" ++ post) = Some ("{" ++ mid ++ "}").
Proof.
  intros Hpre Hpost. unfold search_braces.
  change ("{" ++ mid ++ "}" ++ post) with (String "{" (mid ++ String "}" post)).
  rewrite (from_first_open_skips _ _ Hpre).
  change (String "{" (mid ++ String "}" post))
    with ((String "{" mid) ++ String "}" post).
  rewrite (upto_last_close_keeps _ _ Hpost). reflexivity.
Qed.

(** X22: the text handed to [json.loads] runs from the first opening brace
    to the last closing brace of the reply, so prose before and after the
    JSON object does not change the outcome of parsing and validation. *)
Theorem prose_around_json_is_ignored (pre mid post prompt_type : string) :
  lacks "{" pre = true ->
  lacks "}" post = true ->
  search_braces (pre ++ "{" ++ mid ++ "}" ++ post) = Some ("{" ++ mid ++ "}")
  /\ _parse_and_validate_json json_loads
                              (pre ++ "{" ++ mid ++ "}" ++ post) prompt_type
     = _parse_and_validate_json json_loads ("{" ++ mid ++ "}") prompt_type.
Proof.
  intros Hpre Hpost. split; [apply search_braces_found; assumption|].
  unfold _parse_and_validate_json.
  rewrite (search_braces_found pre mid post Hpre Hpost).
  rewrite (search_braces_found "" mid "" eq_refl eq_refl
           : search_braces ("{" ++ mid ++ "}") = Some ("{" ++ mid ++ "}")).
  reflexivity.
Qed.

End Extraction.

Section ExtractionRuns.
Import BedrockService BedrockRest.

Lemma prose_around_json_is_ignored_witness :
  search_braces ("Here is the review: " ++ "{" ++ "a: {b: 1}" ++ "}"
                 ++ " Let me know.")
  = Some ("{" ++ "a: {b: 1}" ++ "}")
  /\ _parse_and_validate_json Samples.no_json
       ("Here is the review: " ++ "{" ++ "a: {b: 1}" ++ "}"
        ++ " Let me know.") "pr_review"
     = _parse_and_validate_json Samples.no_json
                                ("{" ++ "a: {b: 1}" ++ "}") "pr_review".
Proof.
  apply (prose_around_json_is_ignored Samples.no_json
           "Here is the review: " "a: {b: 1}" " Let me know." "pr_review");
    reflexivity.
Defined.

End ExtractionRuns.

Section KeyChecks.
Import BedrockService BedrockRest.

Lemma check_required_keys_tests keys data :
  Py.returns (check_required_keys keys data)
  = forallb (key_test data) keys.
Proof.
  induction keys as [|key rest IH]; simpl; [reflexivity|].
  destruct data as [| b | n | f | s | l | d]; simpl; try reflexivity.
  - destruct (Py.contains key s); simpl; [exact IH | reflexivity].
  - destruct (existsb (Py.is_str key) l); simpl; [exact IH | reflexivity].
  - destruct (Py.lookup key d); simpl; [exact IH | reflexivity].
Qed.

(** X23: the schema checks of the two analyses test the presence of three
    keys and nothing else: no value is looked at, and the test is
    [key in data] on whatever was parsed, so an array that lists the key
    names, or a string that contains them, passes like an object that has
    them. *)
Theorem analysis_schemas_test_keys_only (data : pyval) :
  Py.returns (_validate_failure_analysis_schema data)
  = forallb (key_test data)
            ["root_cause"; "recommendations"; "confidence_score"]
  /\ Py.returns (_validate_fix_effectiveness_schema data)
     = forallb (key_test data)
               ["fix_effectiveness_score"; "findings_resolved";
                "risk_reduction"].
Proof. split; apply check_required_keys_tests. Qed.

End KeyChecks.

Section Costs.
Import Models BedrockService BedrockRest.

Variable utcnow_isoformat : string.
Variable json_loads : string -> option pyval.
Variables claude_reply llama_reply :
  model_config -> string -> nat -> result string.

Lemma costs_refl w : costs_at_most 0 0 w w.
Proof.
  split; [lia|]. exists []. rewrite app_nil_r. simpl. split; [reflexivity|lia].
Qed.

Lemma total_app a b : total (a ++ b) = (total a + total b)%Z.
Proof.
  unfold total. induction a as [|x a IH]; simpl; [reflexivity|].
  rewrite IH. lia.
Qed.

Lemma costs_trans a b s s' w w1 w2 :
  costs_at_most a s w w1 -> costs_at_most b s' w1 w2 ->
  costs_at_most (a + b) (s + s') w w2.
Proof.
  intros [Hc (n1 & E1 & T1)] [Hc' (n2 & E2 & T2)]. split; [lia|].
  exists (n1 ++ n2)%list. rewrite E2, E1, <- app_assoc, total_app.
  split; [reflexivity | lia].
Qed.

Lemma costs_weaken a b s s' w w' :
  (a <= b)%nat -> (s <= s')%Z ->
  costs_at_most a s w w' -> costs_at_most b s' w w'.
Proof.
  intros Ha Hs [Hc (n & E & T)]. split; [lia|].
  exists n. split; [exact E | lia].
Qed.

Lemma dispatch_costs mc prompt w r w1 :
  dispatch claude_reply llama_reply mc prompt w = (r, w1) ->
  costs_at_most 1 0 w w1.
Proof.
  intros H. apply dispatch_effect in H. destruct H as [Hs Hc].
  split; [lia|]. exists []. rewrite app_nil_r.
  split; [exact Hs | simpl; lia].
Qed.

Lemma sleep_costs w seconds :
  (0 <= seconds)%Z -> costs_at_most 0 seconds w (after_sleeping w [seconds]).
Proof.
  intros H. split; [simpl; lia|]. exists [seconds].
  split; [reflexivity | simpl; lia].
Qed.

(** One backend costs at most three requests and three seconds of
    sleep. *)
Lemma invoke_model_costs mc prompt w r w' :
  _invoke_model claude_reply llama_reply mc prompt w = (r, w') ->
  costs_at_most 3 3 w w'.
Proof.
  unfold _invoke_model.
  change (range max_retries) with [0%Z; 1%Z; 2%Z]. intros H.
  destruct (dispatch claude_reply llama_reply mc prompt w)
    as [[t|e0] w1] eqn:E0.
  { rewrite (attempts_loop_success _ _ _ _ _ _ _ _ _ E0) in H.
    inversion H; subst.
    apply (costs_weaken 1 3 0 3); [lia | lia |].
    eapply dispatch_costs, E0. }
  destruct (retried e0) eqn:R0.
  2:{ rewrite (attempts_loop_raise _ _ _ _ _ _ _ _ _ E0) in H
        by (rewrite R0; reflexivity).
      inversion H; subst.
      apply (costs_weaken 1 3 0 3); [lia | lia |].
      eapply dispatch_costs, E0. }
  rewrite (attempts_loop_retry _ _ 0%Z _ _ _ _ _ _ E0 R0 eq_refl) in H.
  change (backoff * 2 ^ 0)%Z with 1%Z in H.
  apply dispatch_costs in E0.
  pose proof (sleep_costs w1 1%Z ltac:(lia)) as S1.
  pose proof (costs_trans _ _ _ _ _ _ _ E0 S1) as C1. clear E0 S1.
  destruct (dispatch claude_reply llama_reply mc prompt
                     (after_sleeping w1 [1%Z])) as [[t|e1] w2] eqn:E1.
  { rewrite (attempts_loop_success _ _ _ _ _ _ _ _ _ E1) in H.
    inversion H; subst. apply dispatch_costs in E1.
    apply (costs_weaken (1 + 0 + 1) 3 (0 + 1 + 0) 3); [lia | lia |].
    eapply costs_trans; eauto. }
  destruct (retried e1) eqn:R1.
  2:{ rewrite (attempts_loop_raise _ _ _ _ _ _ _ _ _ E1) in H
        by (rewrite R1; reflexivity).
      inversion H; subst. apply dispatch_costs in E1.
      apply (costs_weaken (1 + 0 + 1) 3 (0 + 1 + 0) 3); [lia | lia |].
      eapply costs_trans; eauto. }
  rewrite (attempts_loop_retry _ _ 1%Z _ _ _ _ _ _ E1 R1 eq_refl) in H.
  change (backoff * 2 ^ 1)%Z with 2%Z in H.
  apply dispatch_costs in E1.
  pose proof (costs_trans _ _ _ _ _ _ _ C1 E1) as C2. clear C1 E1.
  pose proof (sleep_costs w2 2%Z ltac:(lia)) as S2.
  pose proof (costs_trans _ _ _ _ _ _ _ C2 S2) as C3. clear C2 S2.
  destruct (dispatch claude_reply llama_reply mc prompt
                     (after_sleeping w2 [2%Z])) as [[t|e2] w3] eqn:E2.
  { rewrite (attempts_loop_success _ _ _ _ _ _ _ _ _ E2) in H.
    inversion H; subst. apply dispatch_costs in E2.
    apply (costs_weaken (1 + 0 + 1 + 0 + 1) 3 (0 + 1 + 0 + 2 + 0) 3);
      [lia | lia |].
    eapply costs_trans; eauto. }
  rewrite (attempts_loop_raise _ _ _ _ _ _ _ _ _ E2) in H
    by apply andb_false_r.
  inversion H; subst. apply dispatch_costs in E2.
  apply (costs_weaken (1 + 0 + 1 + 0 + 1) 3 (0 + 1 + 0 + 2 + 0) 3);
    [lia | lia |].
  eapply costs_trans; eauto.
Qed.

End Costs.

Section PipelineCosts.
Import Models BedrockService BedrockRest.

Variable utcnow_isoformat : string.
Variable json_loads : string -> option pyval.
Variables claude_reply llama_reply :
  model_config -> string -> nat -> result string.
Variable _get_pr_review_prompt :
  string -> list (string * pyval) -> string -> result string.
Variable _get_failure_analysis_prompt : string -> string -> result string.
Variable _get_fix_effectiveness_prompt : string -> result string.

(** Parsing, validation and the builder do not touch the world. *)
Lemma try_model_world mc prompt prompt_type code ctx w :
  snd (try_model utcnow_isoformat json_loads claude_reply llama_reply
                 mc prompt prompt_type code ctx w)
  = snd (_invoke_model claude_reply llama_reply mc prompt w).
Proof.
  unfold try_model, io_bind, io_lift.
  destruct (_invoke_model claude_reply llama_reply mc prompt w)
    as [[text|e] w1]; [|reflexivity].
  destruct (_parse_and_validate_json json_loads text prompt_type);
    reflexivity.
Qed.

Lemma models_loop_costs models prompt prompt_type code ctx : forall w,
  costs_at_most (3 * List.length models) (3 * Z.of_nat (List.length models))
    w (snd (models_loop utcnow_isoformat json_loads claude_reply llama_reply
                        models prompt prompt_type code ctx w)).
Proof.
  induction models as [|mc rest IH]; intros w.
  - apply costs_refl.
  - cbn [models_loop].
    pose proof (try_model_world mc prompt prompt_type code ctx w) as W.
    destruct (_invoke_model claude_reply llama_reply mc prompt w)
      as [r0 w0] eqn:I.
    apply invoke_model_costs in I.
    destruct (try_model _ _ _ _ mc prompt prompt_type code ctx w)
      as [[r|e] w1]; cbn [snd] in *; subst w1.
    + eapply costs_weaken; [| |exact I]; cbn [List.length]; lia.
    + eapply costs_weaken; [| |exact (costs_trans _ _ _ _ _ _ _ I (IH w0))];
        cbn [List.length]; lia.
Qed.

(** X24: a review sends at most nine requests to the runtime and sleeps
    at most nine seconds in total, whatever the backends answer: three
    backends, three attempts each, sleeps of one and two seconds. *)
Theorem review_cost_is_bounded (terraform_code : string)
    (spacelift_context : option (list (string * pyval)))
    (prompt_type : string) (w : world) :
  costs_at_most 9 9 w
    (snd (review_terraform utcnow_isoformat json_loads claude_reply
            llama_reply _get_pr_review_prompt _get_failure_analysis_prompt
            _get_fix_effectiveness_prompt terraform_code spacelift_context
            prompt_type w)).
Proof.
  unfold review_terraform, io_bind, io_lift.
  destruct (_get_prompt_template _ _ _ _ _ _) as [prompt|e].
  - apply (models_loop_costs MODELS).
  - cbn [snd]. eapply costs_weaken; [| |apply costs_refl]; lia.
Qed.

(** X25: a prompt type other than the three known ones is not answered
    with the fallback aggregate: the [ValueError] of the template lookup
    leaves [review_terraform], and no request is sent. *)
Theorem unknown_prompt_type_raises (terraform_code : string)
    (spacelift_context : option (list (string * pyval)))
    (prompt_type : string) (w : world) :
  prompt_type <> "pr_review" ->
  prompt_type <> "failure_analysis" ->
  prompt_type <> "fix_effectiveness" ->
  review_terraform utcnow_isoformat json_loads claude_reply llama_reply
    _get_pr_review_prompt _get_failure_analysis_prompt
    _get_fix_effectiveness_prompt terraform_code spacelift_context
    prompt_type w
  = (Raise (Py.ValueError ("Unknown prompt type: " ++ prompt_type)), w).
Proof.
  intros H1 H2 H3.
  unfold review_terraform, io_bind, io_lift, _get_prompt_template.
  apply String.eqb_neq in H1, H2, H3. rewrite H1, H2, H3. reflexivity.
Qed.

End PipelineCosts.

Section Analyses.
Import Models BedrockService BedrockRest.

Variable utcnow_isoformat : string.
Variable json_loads : string -> option pyval.
Variables claude_reply llama_reply :
  model_config -> string -> nat -> result string.
Variable _get_failure_analysis_prompt :
  string -> pyval -> option pyval -> string -> result string.
Variable _get_fix_effectiveness_prompt :
  string -> string -> list pyval -> list pyval -> string -> result string.

Lemma parse_and_validate_validates text prompt_type parsed :
  _parse_and_validate_json json_loads text prompt_type = Return parsed ->
  _validate_schema parsed prompt_type = Return tt.
Proof.
  unfold _parse_and_validate_json.
  destruct (json_loads _) as [v|]; [|discriminate].
  destruct (_validate_schema v prompt_type) as [[]|e] eqn:E; simpl;
    intros H; inversion H; subst; exact E.
Qed.

Lemma try_analysis_validates mc prompt prompt_type w parsed w1 :
  try_analysis json_loads claude_reply llama_reply mc prompt prompt_type w
  = (Return parsed, w1) ->
  _validate_schema parsed prompt_type = Return tt.
Proof.
  unfold try_analysis, io_bind, io_lift.
  destruct (_invoke_model _ _ mc prompt w) as [[text|e] w0];
    [|discriminate].
  intros H. inversion H.
  eapply parse_and_validate_validates; eauto.
Qed.

Lemma try_analysis_world mc prompt prompt_type w :
  snd (try_analysis json_loads claude_reply llama_reply mc prompt
                    prompt_type w)
  = snd (_invoke_model claude_reply llama_reply mc prompt w).
Proof.
  unfold try_analysis, io_bind, io_lift.
  destruct (_invoke_model _ _ mc prompt w) as [[text|e] w1]; reflexivity.
Qed.

(** The loop over the backends always returns: a parsed reply that
    passed the schema check, or the fallback; and it stays within three
    requests and three seconds per backend. *)
Lemma analysis_loop_returns models prompt prompt_type fallback :
  _validate_schema fallback prompt_type = Return tt ->
  forall w,
  exists v,
    fst (analysis_loop json_loads claude_reply llama_reply models prompt
                       prompt_type fallback w) = Return v
    /\ _validate_schema v prompt_type = Return tt.
Proof.
  intros F. induction models as [|mc rest IH]; intros w.
  - exists fallback. split; [reflexivity | exact F].
  - cbn [analysis_loop].
    destruct (try_analysis _ _ _ mc prompt prompt_type w)
      as [[parsed|e] w1] eqn:T.
    + exists parsed. split; [reflexivity|].
      eapply try_analysis_validates, T.
    + apply IH.
Qed.

Lemma analysis_loop_costs models prompt prompt_type fallback : forall w,
  costs_at_most (3 * List.length models) (3 * Z.of_nat (List.length models))
    w (snd (analysis_loop json_loads claude_reply llama_reply models prompt
                          prompt_type fallback w)).
Proof.
  induction models as [|mc rest IH]; intros w.
  - apply costs_refl.
  - cbn [analysis_loop].
    pose proof (try_analysis_world mc prompt prompt_type w) as W.
    destruct (_invoke_model claude_reply llama_reply mc prompt w)
      as [r0 w0] eqn:I.
    apply invoke_model_costs in I.
    destruct (try_analysis _ _ _ mc prompt prompt_type w)
      as [[r|e] w1]; cbn [snd] in *; subst w1.
    + eapply costs_weaken; [| |exact I]; cbn [List.length]; lia.
    + eapply costs_weaken; [| |exact (costs_trans _ _ _ _ _ _ _ I (IH w0))];
        cbn [List.length]; lia.
Qed.

(** X26: [analyze_failure] raises only what the prompt template raises;
    otherwise it returns, and what it returns passes the failure-analysis
    schema check, be it a reply of a backend or the fallback.  It sends at
    most nine requests and sleeps at most nine seconds. *)
Theorem analyze_failure_returns_checked_analysis (terraform_code : string)
    (error_details : pyval) (previous_review : option pyval) (w : world) :
  let run :=
    analyze_failure utcnow_isoformat json_loads claude_reply llama_reply
                    _get_failure_analysis_prompt terraform_code
                    error_details previous_review w in
  match fst run with
  | Return analysis =>
      _validate_failure_analysis_schema analysis = Return tt
  | Raise e =>
      _get_failure_analysis_prompt terraform_code error_details
                                   previous_review "v1.3" = Raise e
      /\ snd run = w
  end
  /\ costs_at_most 9 9 w (snd run).
Proof.
  cbv zeta. unfold analyze_failure, io_bind, io_lift.
  destruct (_get_failure_analysis_prompt _ _ _ _) as [prompt|e].
  - split; [|apply (analysis_loop_costs MODELS)].
    destruct (analysis_loop_returns MODELS prompt "failure_analysis"
                (_create_fallback_failure_analysis utcnow_isoformat)
                eq_refl w) as (v & -> & V).
    exact V.
  - cbn [fst snd]. split; [split; reflexivity|].
    eapply costs_weaken; [| |apply costs_refl]; lia.
Qed.

(** X27: [compare_fix_effectiveness] raises only what the prompt template
    raises; otherwise it returns, and what it returns passes the
    fix-effectiveness schema check, be it a reply of a backend or the
    fallback.  It sends at most nine requests and sleeps at most nine
    seconds. *)
Theorem compare_fix_effectiveness_returns_checked_analysis
    (original_code fixed_code : string)
    (original_findings fixed_findings : list pyval) (w : world) :
  let run :=
    compare_fix_effectiveness utcnow_isoformat json_loads claude_reply
      llama_reply _get_fix_effectiveness_prompt original_code fixed_code
      original_findings fixed_findings w in
  match fst run with
  | Return analysis =>
      _validate_fix_effectiveness_schema analysis = Return tt
  | Raise e =>
      _get_fix_effectiveness_prompt original_code fixed_code
        original_findings fixed_findings "v1.0" = Raise e
      /\ snd run = w
  end
  /\ costs_at_most 9 9 w (snd run).
Proof.
  cbv zeta. unfold compare_fix_effectiveness, io_bind, io_lift.
  destruct (_get_fix_effectiveness_prompt _ _ _ _ _) as [prompt|e].
  - split; [|apply (analysis_loop_costs MODELS)].
    destruct (analysis_loop_returns MODELS prompt "fix_effectiveness"
                (_create_fallback_fix_analysis utcnow_isoformat)
                eq_refl w) as (v & -> & V).
    exact V.
  - cbn [fst snd]. split; [split; reflexivity|].
    eapply costs_weaken; [| |apply costs_refl]; lia.
Qed.

End Analyses.

Section PipelineRunsMore.
Import Models BedrockService BedrockRest.

Lemma unknown_prompt_type_raises_witness :
  review_terraform "2026-01-01T00:00:00" Samples.no_json
    Samples.always_throttled Samples.always_throttled Samples.prompt_pr
    Samples.prompt_fa Samples.prompt_fe "resource {}" None "summary"
    init_world
  = (Raise (Py.ValueError ("Unknown prompt type: " ++ "summary")),
     init_world).
Proof.
  apply (unknown_prompt_type_raises "2026-01-01T00:00:00" Samples.no_json
           Samples.always_throttled Samples.always_throttled
           Samples.prompt_pr Samples.prompt_fa Samples.prompt_fe
           "resource {}" None "summary" init_world);
    discriminate.
Defined.

End PipelineRunsMore.

(** ** Lookups return what was asked for *)

Section LookupSoundness.
Import Models DynamoDBClient DynamoDBRest.

Lemma to_int_not_nil (z : Z) :
  Z.to_int z <> Decimal.Pos Decimal.Nil
  /\ Z.to_int z <> Decimal.Neg Decimal.Nil.
Proof.
  pose proof (DecimalZ.to_of (Z.to_int z)) as H.
  rewrite DecimalZ.of_to in H.
  split; intros E; rewrite E in H; vm_compute in H; discriminate H.
Qed.

(** The decimal text of an integer determines the integer. *)
Lemma str_of_int_inj (a b : Z) :
  Py.str_of_int a = Py.str_of_int b -> a = b.
Proof.
  unfold Py.str_of_int. intros H.
  destruct (to_int_not_nil a) as [A1 A2].
  destruct (to_int_not_nil b) as [B1 B2].
  pose proof (NilZero.isi _ A1 A2) as Ia.
  pose proof (NilZero.isi _ B1 B2) as Ib.
  rewrite H, Ib in Ia. inversion Ia as [E].
  rewrite <- (DecimalZ.of_to a), <- (DecimalZ.of_to b), E. reflexivity.
Qed.

Lemma get_item_found (t : Table) (pk sk : string) (item : Item) :
  get_item t pk sk = Some item ->
  In item t /\ PK item = pk /\ SK item = sk.
Proof.
  unfold get_item. intros H. apply find_some in H. destruct H as [Hin Hk].
  unfold has_key in Hk. apply andb_prop in Hk. destruct Hk as [Hp Hs].
  apply String.eqb_eq in Hp, Hs. auto.
Qed.

(** X28: on a table whose rows carry the keys the client builds, a
    review that [get_review] returns carries the id that was asked for,
    and, when a version other than zero and of a magnitude the table
    holds exactly was asked for, that version. *)
Theorem lookup_returns_what_was_asked (t : Table) (review_id : string)
    (version : option Z) (item : Item) :
  keyed_by_client t ->
  get_review t review_id version = Some item ->
  r_review_id (attributes item) = review_id
  /\ (forall n, version = Some n -> n <> 0%Z -> (Z.abs n <= 2 ^ 53)%Z ->
                Models.version (attributes item) = n).
Proof.
  intros Hw Hg. unfold keyed_by_client in Hw. rewrite Forall_forall in Hw.
  assert (K : In item t /\ PK item = "REVIEW#" ++ review_id
              /\ (forall n, version = Some n -> n <> 0%Z ->
                    SK item = "VERSION#" ++ Py.str_of_int n)).
  { destruct (truthy_int version) eqn:T.
    - unfold get_review in Hg. rewrite T in Hg.
      apply get_item_found in Hg. destruct Hg as (Hin & Hp & Hs).
      split; [exact Hin|]. split; [exact Hp|].
      intros n -> _. exact Hs.
    - assert (E : get_review t review_id version
                  = get_review t review_id None).
      { unfold get_review. rewrite T. reflexivity. }
      rewrite E in Hg. apply get_review_latest_by_text in Hg.
      destruct Hg as (Hin & Hp & _).
      split; [exact Hin|]. split; [exact Hp|].
      intros n -> Hn. unfold truthy_int in T.
      destruct (n =? 0)%Z eqn:Z0; [|discriminate T].
      apply Z.eqb_eq in Z0. contradiction. }
  destruct K as (Hin & Hp & Hs).
  destruct (Hw item Hin) as [Wp Ws].
  split.
  - rewrite Wp in Hp. exact (string_app_inv_head _ _ _ Hp).
  - intros n Hv Hn _. specialize (Hs n Hv Hn).
    rewrite Ws in Hs.
    apply string_app_inv_head in Hs. exact (str_of_int_inj _ _ Hs).
Qed.

(** Version 2 of review [r-1], asked for among its three versions. *)
Lemma lookup_returns_what_was_asked_witness :
  r_review_id (attributes (item_of MoreSamples.second_version)) = "r-1"
  /\ (forall n, Some 2%Z = Some n -> n <> 0%Z -> (Z.abs n <= 2 ^ 53)%Z ->
                Models.version
                  (attributes (item_of MoreSamples.second_version)) = n).
Proof.
  apply (lookup_returns_what_was_asked (Samples.history 2) "r-1"
           (Some 2%Z) (item_of MoreSamples.second_version)).
  - repeat constructor.
  - vm_compute. reflexivity.
Defined.

End LookupSoundness.

(** ** What a review and a backend call can end in *)

Section Outcomes.
Import Models BedrockService BedrockRest.

Variable utcnow_isoformat : string.
Variable json_loads : string -> option pyval.
Variables claude_reply llama_reply :
  model_config -> string -> nat -> result string.
Variable _get_pr_review_prompt :
  string -> list (string * pyval) -> string -> result string.
Variable _get_failure_analysis_prompt : string -> string -> result string.
Variable _get_fix_effectiveness_prompt : string -> result string.

(** X29: a review ends in one of two ways, whatever the backends answer:
    the prompt template raises and that exception leaves
    [review_terraform] before any request is sent, or the fallback
    aggregate is returned.  No analysis of a backend reaches the caller,
    because the result builder raises on every reply. *)
Theorem review_ends_in_fallback_or_prompt_error (terraform_code : string)
    (spacelift_context : option (list (string * pyval)))
    (prompt_type : string) (w : world) :
  let run :=
    review_terraform utcnow_isoformat json_loads claude_reply llama_reply
      _get_pr_review_prompt _get_failure_analysis_prompt
      _get_fix_effectiveness_prompt terraform_code spacelift_context
      prompt_type w in
  match fst run with
  | Return result => result = _create_fallback_result utcnow_isoformat
  | Raise e =>
      _get_prompt_template _get_pr_review_prompt
        _get_failure_analysis_prompt _get_fix_effectiveness_prompt
        prompt_type terraform_code
        (match spacelift_context with Some d => d | None => [] end)
      = Raise e
      /\ snd run = w
  end.
Proof.
  cbv zeta.
  destruct (_get_prompt_template _get_pr_review_prompt
              _get_failure_analysis_prompt _get_fix_effectiveness_prompt
              prompt_type terraform_code
              (match spacelift_context with Some d => d | None => [] end))
    as [prompt|e] eqn:P.
  - destruct (review_terraform_always_degraded utcnow_isoformat json_loads
                claude_reply llama_reply _get_pr_review_prompt
                _get_failure_analysis_prompt _get_fix_effectiveness_prompt
                terraform_code spacelift_context prompt_type prompt w P)
      as [w' E].
    rewrite E. reflexivity.
  - unfold review_terraform, io_bind, io_lift. rewrite P.
    split; reflexivity.
Qed.

(** X30: an exception that leaves [_invoke_model] is one a request to the
    backend raised, in the world that request left behind: the closing
    [raise Exception("All retry attempts failed")] is never reached. *)
Theorem invoke_model_raises_a_backend_error (mc : model_config)
    (prompt : string) (w : world) (e : exn) (w' : world) :
  _invoke_model claude_reply llama_reply mc prompt w = (Raise e, w') ->
  exists w0,
    dispatch claude_reply llama_reply mc prompt w0 = (Raise e, w').
Proof.
  unfold _invoke_model.
  change (range max_retries) with [0%Z; 1%Z; 2%Z]. intros H.
  destruct (dispatch claude_reply llama_reply mc prompt w)
    as [[t|e0] w1] eqn:E0.
  { rewrite (attempts_loop_success _ _ _ _ _ _ _ _ _ E0) in H.
    discriminate H. }
  destruct (retried e0) eqn:R0.
  2:{ rewrite (attempts_loop_raise _ _ _ _ _ _ _ _ _ E0) in H
        by (rewrite R0; reflexivity).
      inversion H; subst. eauto. }
  rewrite (attempts_loop_retry _ _ 0%Z _ _ _ _ _ _ E0 R0 eq_refl) in H.
  change (backoff * 2 ^ 0)%Z with 1%Z in H.
  destruct (dispatch claude_reply llama_reply mc prompt
                     (after_sleeping w1 [1%Z])) as [[t|e1] w2] eqn:E1.
  { rewrite (attempts_loop_success _ _ _ _ _ _ _ _ _ E1) in H.
    discriminate H. }
  destruct (retried e1) eqn:R1.
  2:{ rewrite (attempts_loop_raise _ _ _ _ _ _ _ _ _ E1) in H
        by (rewrite R1; reflexivity).
      inversion H; subst. eauto. }
  rewrite (attempts_loop_retry _ _ 1%Z _ _ _ _ _ _ E1 R1 eq_refl) in H.
  change (backoff * 2 ^ 1)%Z with 2%Z in H.
  destruct (dispatch claude_reply llama_reply mc prompt
                     (after_sleeping w2 [2%Z])) as [[t|e2] w3] eqn:E2.
  { rewrite (attempts_loop_success _ _ _ _ _ _ _ _ _ E2) in H.
    discriminate H. }
  rewrite (attempts_loop_raise _ _ _ _ _ _ _ _ _ E2) in H
    by apply andb_false_r.
  inversion H; subst. eauto.
Qed.

End Outcomes.

Section OutcomeRuns.
Import Models BedrockService BedrockRest.

Lemma invoke_model_raises_a_backend_error_witness :
  exists w0,
    dispatch Samples.always_rejected Samples.always_rejected Samples.sonnet
             "Analyze the following Terraform code" w0
    = (Raise (Py.ClientError "ValidationException"),
       {| calls := 1; slept := [] |}).
Proof.
  apply (invoke_model_raises_a_backend_error Samples.always_rejected
           Samples.always_rejected Samples.sonnet
           "Analyze the following Terraform code" init_world).
  vm_compute. reflexivity.
Defined.

End OutcomeRuns.
